(** * MediaWiki item discovery: a shallow embedding of
      [mediawiki-item-discovery.py] and the properties of its
      endpoint resolver, paginated walkers, item normalizer and
      orchestrator.

    Conventions of the embedding.
    - A Python [str] is a [string] holding its UTF-8 bytes; the only
      operations of the script that look at single characters go through
      [py_chars].
    - The value produced by [response.json()] is a [json]; numeric
      literals are integers.
    - A Python [dict] keeps insertion order: it is an association list.
    - Every function of the script that talks to the network or to the
      file system is a computation in the monad [M]: it threads the state
      of the outside world, records the effects it performs as a list of
      [event]s, and ends with a value, an uncaught exception, or runs out
      of fuel (the two [while True] loops).
    - [print] calls have no influence on control flow and are left out,
      except for the evaluation of their arguments when that can raise. *)

From stdpp Require Import base strings list gmap pretty.
From Stdlib Require Import ZArith Ascii String.

Local Open Scope string_scope.
Local Open Scope list_scope.
Local Open Scope Z_scope.

Set Warnings "-register-all".

(** ** Python values *)

Inductive exn : Type :=
| KeyError (key : string)
| TypeError
| ValueError
| AttributeError
| RequestException
| JSONDecodeError.

Inductive pyres (A : Type) : Type :=
| Ret (a : A)
| Raise (e : exn).

Arguments Ret {A} a.
Arguments Raise {A} e.

Definition pyres_bind {A B : Type} (r : pyres A) (f : A -> pyres B) : pyres B :=
  match r with
  | Ret a => f a
  | Raise e => Raise e
  end.

Inductive json : Type :=
| JNull
| JBool (b : bool)
| JNum (z : Z)
| JStr (s : string)
| JArr (l : list json)
| JObj (kvs : list (string * json)).

(** Hashable values: what can be a dictionary key or a set element. *)
Inductive pykey : Type :=
| KNone
| KBool (b : bool)
| KInt (z : Z)
| KStr (s : string).

Definition key_norm (k : pykey) : pykey :=
  match k with
  | KBool b => KInt (Z.b2z b)
  | _ => k
  end.

Global Instance pykey_eq_dec : EqDecision pykey.
Proof. solve_decision. Defined.

(** Python's [==] on hashable values: [True == 1] and [False == 0]. *)
Definition pykey_eqb (a b : pykey) : bool :=
  bool_decide (key_norm a = key_norm b).

Definition json_of_key (k : pykey) : json :=
  match k with
  | KNone => JNull
  | KBool b => JBool b
  | KInt z => JNum z
  | KStr s => JStr s
  end.

(** [hash(v)]: lists and dicts are unhashable. *)
Definition py_hash (v : json) : pyres pykey :=
  match v with
  | JNull => Ret KNone
  | JBool b => Ret (KBool b)
  | JNum z => Ret (KInt z)
  | JStr s => Ret (KStr s)
  | JArr _ | JObj _ => Raise TypeError
  end.

(** ** Strings *)

Fixpoint str_contains (needle hay : string) : bool :=
  String.prefix needle hay ||
  match hay with
  | EmptyString => false
  | String _ rest => str_contains needle rest
  end.

(** [s.split('?')[0]] *)
Fixpoint before_question_mark (s : string) : string :=
  match s with
  | EmptyString => EmptyString
  | String c rest =>
      if Ascii.eqb c "?"%char then EmptyString
      else String c (before_question_mark rest)
  end.

(** [s.replace('$1', new)] *)
Fixpoint replace_dollar1 (s new : string) : string :=
  match s with
  | EmptyString => EmptyString
  | String c rest =>
      match rest with
      | String d rest' =>
          if Ascii.eqb c "$"%char && Ascii.eqb d "1"%char
          then new +:+ replace_dollar1 rest' new
          else String c (replace_dollar1 rest new)
      | EmptyString => String c EmptyString
      end
  end.

Definition is_utf8_continuation (a : ascii) : bool :=
  let n := N_of_ascii a in
  (128 <=? n)%N && (n <? 192)%N.

(** The characters of a [str], each as a one-character [str]. *)
Fixpoint py_chars (s : string) : list string :=
  match s with
  | EmptyString => []
  | String a rest =>
      match rest with
      | EmptyString => [String a EmptyString]
      | String b _ =>
          if is_utf8_continuation b then
            match py_chars rest with
            | c :: cs => String a c :: cs
            | [] => [String a EmptyString]
            end
          else String a EmptyString :: py_chars rest
      end
  end.

(** ** Dictionaries *)

Definition pydict : Type := list (pykey * json).

Fixpoint dict_get (k : pykey) (d : pydict) : option json :=
  match d with
  | [] => None
  | (k', v) :: d' => if pykey_eqb k k' then Some v else dict_get k d'
  end.

(** [d[k] = v]: an existing key keeps its place (and its key object). *)
Fixpoint dict_set (k : pykey) (v : json) (d : pydict) : pydict :=
  match d with
  | [] => [(k, v)]
  | (k', v') :: d' =>
      if pykey_eqb k k' then (k', v) :: d'
      else (k', v') :: dict_set k v d'
  end.

Fixpoint obj_get (k : string) (kvs : list (string * json)) : option json :=
  match kvs with
  | [] => None
  | (k', v) :: kvs' => if String.eqb k k' then Some v else obj_get k kvs'
  end.

(** [k in v] for a string [k]. *)
Definition py_contains (k : string) (v : json) : pyres bool :=
  match v with
  | JObj kvs => Ret (bool_decide (is_Some (obj_get k kvs)))
  | JArr l =>
      Ret (existsb (fun e => match e with JStr s => String.eqb s k | _ => false end) l)
  | JStr s => Ret (str_contains k s)
  | JNull | JBool _ | JNum _ => Raise TypeError
  end.

(** [v[k]] for a string [k]. *)
Definition py_getitem (v : json) (k : string) : pyres json :=
  match v with
  | JObj kvs =>
      match obj_get k kvs with
      | Some x => Ret x
      | None => Raise (KeyError k)
      end
  | _ => Raise TypeError
  end.

(** [v.items()] *)
Definition py_items (v : json) : pyres (list (string * json)) :=
  match v with
  | JObj kvs => Ret kvs
  | _ => Raise AttributeError
  end.

(** [v.values()] *)
Definition py_values (v : json) : pyres (list json) :=
  match v with
  | JObj kvs => Ret (map snd kvs)
  | _ => Raise AttributeError
  end.

(** [len(v)] is only evaluated for its exception. *)
Definition py_len_check (v : json) : pyres unit :=
  match v with
  | JStr _ | JArr _ | JObj _ => Ret tt
  | JNull | JBool _ | JNum _ => Raise TypeError
  end.

(** [for x in v] *)
Definition py_iter (v : json) : pyres (list json) :=
  match v with
  | JArr l => Ret l
  | JObj kvs => Ret (map (fun kv => JStr (fst kv)) kvs)
  | JStr s => Ret (map JStr (py_chars s))
  | JNull | JBool _ | JNum _ => Raise TypeError
  end.

(** [v < 0] *)
Definition py_lt0 (v : json) : pyres bool :=
  match v with
  | JNum z => Ret (z <? 0)
  | JBool _ => Ret false
  | _ => Raise TypeError
  end.

(** One element of the sequence given to [dict.update]: it must unpack
    into exactly a key and a value. *)
Definition update_pair (e : json) : pyres (pykey * json) :=
  match e with
  | JNull | JBool _ | JNum _ => Raise TypeError
  | JStr s =>
      match py_chars s with
      | [a; b] => Ret (KStr a, JStr b)
      | _ => Raise ValueError
      end
  | JArr l =>
      match l with
      | [a; b] => pyres_bind (py_hash a) (fun k => Ret (k, b))
      | _ => Raise ValueError
      end
  | JObj kvs =>
      match kvs with
      | [(a, _); (b, _)] => Ret (KStr a, JStr b)
      | _ => Raise ValueError
      end
  end.

Fixpoint update_from_pairs (d : pydict) (l : list json) : pyres pydict :=
  match l with
  | [] => Ret d
  | e :: l' =>
      pyres_bind (update_pair e) (fun kv =>
        update_from_pairs (dict_set (fst kv) (snd kv) d) l')
  end.

Definition update_from_obj (d : pydict) (kvs : list (string * json)) : pydict :=
  fold_left (fun acc kv => dict_set (KStr (fst kv)) (snd kv) acc) kvs d.

(** [d.update(v)] *)
Definition dict_update (d : pydict) (v : json) : pyres pydict :=
  match v with
  | JObj kvs => Ret (update_from_obj d kvs)
  | JArr l => update_from_pairs d l
  | JStr s => update_from_pairs d (map JStr (py_chars s))
  | JNull | JBool _ | JNum _ => Raise TypeError
  end.

(** ** The outside world *)

(** A [<link>] element of a parsed page: the values of its multi-valued
    [rel] attribute and its [href] attribute, if it has one. *)
Record link_tag : Type := LinkTag {
  link_rel : list string;
  link_href : option string
}.

(** What the script reads of an HTTP response: the [<link>] elements of
    [BeautifulSoup(response.text, 'html.parser')] in document order, and
    the result of [response.json()]. *)
Record response : Type := Response {
  resp_soup : list link_tag;
  resp_json : pyres json
}.

Inductive event : Type :=
| EvGet (url : string) (params : option pydict)
| EvSleep (seconds : Z)
| EvAppend (file : string) (lines : list string).

Inductive outcome (A : Type) : Type :=
| Done (a : A)
| Raised (e : exn)
| OutOfFuel.

Arguments Done {A} a.
Arguments Raised {A} e.
Arguments OutOfFuel {A}.

(** [soup.find('link', rel=value)]: the first [<link>] one of whose [rel]
    values is [value]. *)
Fixpoint soup_find (value : string) (soup : list link_tag) : option link_tag :=
  match soup with
  | [] => None
  | t :: soup' =>
      if existsb (String.eqb value) (link_rel t) then Some t
      else soup_find value soup'
  end.

Definition newline : string := String (ascii_of_nat 10) EmptyString.

(** A [set] of hashable values, as the list of its elements in order of
    first insertion: of two equal values ([True] and [1]) the one inserted
    first is the element. *)
Definition pyset : Type := list pykey.

Definition pyset_add (k : pykey) (s : pyset) : pyset :=
  if existsb (pykey_eqb k) s then s else s ++ [k].

Record cli_args : Type := CliArgs {
  args_url : string;
  args_delay : option string
}.

(** Line 8: the module-level variable, assigned nowhere else. *)
Definition delaySeconds : Z := 0.


(** ** Reading a trace *)

(** The parameter sets of the requests of a trace, in order. *)
Fixpoint requests_of (evs : list event) : list pydict :=
  match evs with
  | [] => []
  | EvGet _ (Some params) :: evs' => params :: requests_of evs'
  | _ :: evs' => requests_of evs'
  end.

(** The pauses of a trace, in order. *)
Fixpoint sleeps_of (evs : list event) : list Z :=
  match evs with
  | [] => []
  | EvSleep d :: evs' => d :: sleeps_of evs'
  | _ :: evs' => sleeps_of evs'
  end.

(** The lines appended to the output file, in order. *)
Fixpoint lines_of (evs : list event) : list string :=
  match evs with
  | [] => []
  | EvAppend _ lines :: evs' => lines ++ lines_of evs'
  | _ :: evs' => lines_of evs'
  end.

(** The walks of a trace, each given by the parameters of its first
    request: a walk starts at the first request of the trace and at the
    first request after each write ([fresh] tells whether the next
    request starts a walk). *)
Fixpoint walk_starts (fresh : bool) (evs : list event) : list pydict :=
  match evs with
  | [] => []
  | EvGet _ (Some params) :: evs' =>
      if fresh then params :: walk_starts false evs' else walk_starts false evs'
  | EvAppend _ _ :: evs' => walk_starts true evs'
  | _ :: evs' => walk_starts fresh evs'
  end.



(** The form of a Discovered Item as the script writes it. *)
Definition item_kinds : list string :=
  ["mediawiki-article"; "mediawiki-media"; "mediawiki-special"].

Definition is_item (kind item : string) : Prop :=
  exists url, item = kind +:+ ":" +:+ url.

Definition item_line (line : string) : Prop :=
  exists kind item, In kind item_kinds /\ is_item kind item /\ line = item +:+ newline.

(** ** A mock wiki for the worked examples *)

Module Mock.

(** A server that answers the successive requests with the successive
    elements of a script, whatever is asked. *)
Definition scripted_get (url : string) (params : option pydict) (w : list response)
  : pyres response * list response :=
  match w with
  | r :: w' => (Ret r, w')
  | [] => (Raise RequestException, [])
  end.

Definition json_reply (data : json) : response :=
  {| resp_soup := []; resp_json := Ret data |}.

Definition is_alpha (c : ascii) : bool :=
  let n := N_of_ascii c in
  ((65 <=? n) && (n <=? 90) || (97 <=? n) && (n <=? 122))%N.

Definition is_scheme_char (c : ascii) : bool :=
  let n := N_of_ascii c in
  (is_alpha c || (48 <=? n) && (n <=? 57) || (n =? 43) || (n =? 45) || (n =? 46))%N.

Definition to_lower (c : ascii) : ascii :=
  let n := N_of_ascii c in
  if ((65 <=? n) && (n <=? 90))%N then ascii_of_N (n + 32) else c.

Fixpoint split_colon (s : string) : option (string * string) :=
  match s with
  | EmptyString => None
  | String c rest =>
      if Ascii.eqb c ":"%char then Some (EmptyString, rest)
      else match split_colon rest with
           | Some (a, b) => Some (String c a, b)
           | None => None
           end
  end.

Fixpoint string_forallb (f : ascii -> bool) (s : string) : bool :=
  match s with
  | EmptyString => true
  | String c rest => f c && string_forallb f rest
  end.

Fixpoint string_map (f : ascii -> ascii) (s : string) : string :=
  match s with
  | EmptyString => EmptyString
  | String c rest => String (f c) (string_map f rest)
  end.

Fixpoint take_netloc (s : string) : string :=
  match s with
  | EmptyString => EmptyString
  | String c rest =>
      if Ascii.eqb c "/"%char || Ascii.eqb c "?"%char || Ascii.eqb c "#"%char
      then EmptyString
      else String c (take_netloc rest)
  end.

Definition split_scheme (url : string) : string * string :=
  match split_colon url with
  | Some (String c0 s0, rest) =>
      if is_alpha c0 && string_forallb is_scheme_char (String c0 s0)
      then (string_map to_lower (String c0 s0), rest)
      else (EmptyString, url)
  | _ => (EmptyString, url)
  end.

(** [urlparse(url).scheme] and [.netloc] for a URL of printable ASCII
    characters without brackets. *)
Definition urlparse (url : string) : pyres (string * string) :=
  let (scheme, rest) := split_scheme url in
  match rest with
  | String "/" (String "/" rest') => Ret (scheme, take_netloc rest')
  | _ => Ret (scheme, EmptyString)
  end.

(** [urljoin(base, url)] for the calls of the examples: [url] is empty,
    or begins with a single [/] and [base] has a scheme and a host, or is
    itself a URL with a scheme. *)
Definition urljoin (base url : json) : pyres json :=
  match base, url with
  | JStr b, JStr u =>
      match u with
      | EmptyString => Ret (JStr b)
      | String "/" _ =>
          match urlparse b with
          | Ret (scheme, netloc) => Ret (JStr (scheme +:+ "://" +:+ netloc +:+ u))
          | Raise e => Raise e
          end
      | _ => Ret (JStr u)
      end
  | _, _ => Raise TypeError
  end.

(** [str(v)] of [None], a [bool] or an [int]; no list or dict is
    formatted in the examples. *)
Definition py_repr (v : json) : string :=
  match v with
  | JNull => "None"
  | JBool true => "True"
  | JBool false => "False"
  | JNum z => pretty z
  | _ => EmptyString
  end.

(** The alias entry [{realname: "Export", aliases: ["ExportPages"]}]. *)
Definition export_entry : json :=
  JObj [("realname", JStr "Export"); ("aliases", JArr [JStr "ExportPages"])].

(** A [specialpagealiases] answer with the given entries. *)
Definition aliases_data (entries : list json) : json :=
  JObj [("query", JObj [("specialpagealiases", JArr entries)])].

Definition api : string := "https://wiki.example/api.php".

Definition article_entry : json :=
  JObj [("pageid", JNum 1); ("title", JStr "Main Page");
        ("fullurl", JStr "https://wiki.example/wiki/Main_Page")].

Definition media_entry : json :=
  JObj [("name", JStr "Logo.png");
        ("url", JStr "https://wiki.example/images/Logo.png")].

Definition pages_data : json :=
  JObj [("query", JObj [("pages", JObj [("1", article_entry)])])].

Definition images_data : json :=
  JObj [("query", JObj [("allimages", JArr [media_entry])])].

(** The namespace table [{0: Main, -1: Special, 2: Talk}]. *)
Definition namespace_table : list (string * json) :=
  [ ("0", JObj [("id", JNum 0); ("*", JStr "Main")]);
    ("-1", JObj [("id", JNum (-1)); ("*", JStr "Special")]);
    ("2", JObj [("id", JNum 2); ("*", JStr "Talk")]) ].

Definition siteinfo_data : json :=
  JObj [("query",
         JObj [("general", JObj [("server", JStr "https://wiki.example");
                                 ("articlepath", JStr "/wiki/$1")]);
               ("namespaces", JObj namespace_table)])].

(** A whole wiki: site information, one page of articles for each of
    the namespaces 0 and 2, one page of media, the special pages. *)
Definition wiki_script : list response :=
  [ json_reply siteinfo_data;
    json_reply pages_data;
    json_reply pages_data;
    json_reply images_data;
    json_reply (aliases_data [export_entry]) ].

(** A first page with a modern continuation object, then a last page. *)
Definition modern_script : list response :=
  [ json_reply (JObj [("continue", JObj [("gapcontinue", JStr "B");
                                         ("continue", JStr "gapcontinue||")]);
                      ("query", JObj [("pages", JObj [("1", article_entry)])])]);
    json_reply pages_data ].

(** A first page with the legacy continuation object of the article
    listing, then a last page. *)
Definition legacy_pages_script : list response :=
  [ json_reply (JObj [("query-continue",
                       JObj [("allpages", JObj [("gapcontinue", JStr "B")])]);
                      ("query", JObj [("pages", JObj [("1", article_entry)])])]);
    json_reply pages_data ].

(** The same for the media listing. *)
Definition legacy_images_script : list response :=
  [ json_reply (JObj [("query-continue",
                       JObj [("allimages", JObj [("aicontinue", JStr "M.png")])]);
                      ("query", JObj [("allimages", JArr [media_entry])])]);
    json_reply images_data ].

(** A first page whose [query] object has no [pages] member but which
    carries a continuation, then a last page. *)
Definition malformed_script : list response :=
  [ json_reply (JObj [("continue", JObj [("gapcontinue", JStr "B");
                                         ("continue", JStr "gapcontinue||")]);
                      ("query", JObj [])]);
    json_reply pages_data ].

(** A first page without a [query] key but with a continuation. *)
Definition no_query_data : json :=
  JObj [("continue", JObj [("gapcontinue", JStr "B");
                           ("continue", JStr "gapcontinue||")])].

(** A page without an EditURI link and with a stylesheet link. *)
Definition stylesheet_page : response :=
  {| resp_soup :=
       [ {| link_rel := ["icon"]; link_href := Some "/favicon.ico" |};
         {| link_rel := ["stylesheet"];
            link_href := Some "https://wiki.example/skins/common/load.css" |} ];
     resp_json := Raise JSONDecodeError |}.



(** A page with an EditURI link and a stylesheet link. *)
Definition edituri_page : response :=
  {| resp_soup :=
       [ {| link_rel := ["EditURI"];
            link_href := Some "https://wiki.example/w/api.php?action=rsd" |};
         {| link_rel := ["stylesheet"];
            link_href := Some "https://wiki.example/skins/common/load.css" |} ];
     resp_json := Raise JSONDecodeError |}.

(** The same page, its EditURI link without a target. *)
Definition edituri_without_href_page : response :=
  {| resp_soup :=
       [ {| link_rel := ["EditURI"]; link_href := None |};
         {| link_rel := ["stylesheet"];
            link_href := Some "https://wiki.example/skins/common/load.css" |} ];
     resp_json := Raise JSONDecodeError |}.


(** A page without any link. *)
Definition plain_page : response :=
  {| resp_soup := []; resp_json := Raise JSONDecodeError |}.

(** A page of articles whose second entry has no [fullurl]. *)
Definition incomplete_pages : list (string * json) :=
  [ ("1", article_entry); ("2", JObj [("pageid", JNum 2); ("title", JStr "Sandbox")]) ].

Definition incomplete_pages_data : json :=
  JObj [("query", JObj [("pages", JObj incomplete_pages)])].

(** The first answer of [modern_script]. *)
Definition modern_first_data : json :=
  JObj [("continue", JObj [("gapcontinue", JStr "B");
                           ("continue", JStr "gapcontinue||")]);
        ("query", JObj [("pages", JObj [("1", article_entry)])])].

(** An alias entry without aliases. *)
Definition version_entry : json := JObj [("realname", JStr "Version")].

End Mock.

(** ** The script *)

Section Discovery.

(** The state of everything outside the process (the wiki server). *)
Variable world : Type.

(** [requests.get(url, params=params)] *)
Variable requests_get : string -> option pydict -> world -> pyres response * world.

(** [urllib.parse.urljoin] *)
Variable urljoin : json -> json -> pyres json.

(** [urllib.parse.urlparse], of which the script reads [scheme] and
    [netloc]. *)
Variable urlparse : string -> pyres (string * string).

(** [str(v)] for a value that is not a [str]. *)
Variable py_repr : json -> string.

Definition M (A : Type) : Type := world -> outcome A * list event * world.

Definition ret {A : Type} (a : A) : M A := fun w => (Done a, [], w).

Definition bind {A B : Type} (m : M A) (f : A -> M B) : M B :=
  fun w =>
    match m w with
    | (Done a, ev, w') =>
        match f a w' with
        | (r, ev', w'') => (r, ev ++ ev', w'')
        end
    | (Raised e, ev, w') => (Raised e, ev, w')
    | (OutOfFuel, ev, w') => (OutOfFuel, ev, w')
    end.

Definition lift {A : Type} (r : pyres A) : M A :=
  fun w =>
    match r with
    | Ret a => (Done a, [], w)
    | Raise e => (Raised e, [], w)
    end.

Definition emit (e : event) : M unit := fun w => (Done tt, [e], w).

Definition out_of_fuel {A : Type} : M A := fun w => (OutOfFuel, [], w).

Definition http_get (url : string) (params : option pydict) : M response :=
  fun w =>
    match requests_get url params w with
    | (Ret r, w') => (Done r, [EvGet url params], w')
    | (Raise e, w') => (Raised e, [EvGet url params], w')
    end.

Notation "x <- m ;; k" := (bind m (fun x => k))
  (at level 100, m at next level, right associativity, only parsing).
Notation "m ;; k" := (bind m (fun _ => k))
  (at level 100, right associativity, only parsing).

(** An f-string field [{v}]. *)
Definition py_format (v : json) : string :=
  match v with
  | JStr s => s
  | _ => py_repr v
  end.

Definition delay : M unit := emit (EvSleep delaySeconds).

Definition rate_limited {A : Type} (func : M A) : M A :=
  delay ;; func.

Definition save_items (items : list string) : M unit :=
  emit (EvAppend "items.txt" (map (fun item => item +:+ newline) items)).

Definition get_api_url (wiki_url : string) : M (option string) :=
  if str_contains "api.php" wiki_url then ret (Some wiki_url)
  else
    response <- http_get wiki_url None ;;
    let soup := resp_soup response in
    match soup_find "EditURI" soup with
    | Some link =>
        api_url <- lift (match link_href link with
                         | Some h => Ret h
                         | None => Raise (KeyError "href")
                         end) ;;
        ret (Some (before_question_mark api_url))
    | None =>
        delay ;;
        match soup_find "stylesheet" soup with
        | Some css_link =>
            match link_href css_link with
            | Some css_url =>
                parsed_url <- lift (urlparse css_url) ;;
                ret (Some (fst parsed_url +:+ "://" +:+ snd parsed_url +:+ "/api.php"))
            | None => ret None
            end
        | None => ret None
        end
    end.

Definition site_info_params : pydict :=
  [ (KStr "action", JStr "query");
    (KStr "meta", JStr "siteinfo");
    (KStr "siprop", JStr "general|namespaces");
    (KStr "format", JStr "json") ].

Definition get_site_info (api_url : string) : M (json * json) :=
  rate_limited (
    response <- http_get api_url (Some site_info_params) ;;
    data <- lift (resp_json response) ;;
    site_info <- lift (pyres_bind (py_getitem data "query")
                         (fun q => py_getitem q "general")) ;;
    namespaces <- lift (pyres_bind (py_getitem data "query")
                          (fun q => py_getitem q "namespaces")) ;;
    ret (site_info, namespaces)).

(** ** Item normalizer *)

Definition article_item (page_info : json) : pyres string :=
  pyres_bind (py_getitem page_info "fullurl") (fun u =>
    Ret ("mediawiki-article:" +:+ py_format u)).

Definition media_item (image : json) : pyres string :=
  pyres_bind (py_getitem image "url") (fun u =>
    Ret ("mediawiki-media:" +:+ py_format u)).

Definition special_item (template_url : json) (special_page : pykey) : pyres string :=
  match template_url with
  | JStr t =>
      Ret ("mediawiki-special:" +:+
           replace_dollar1 t ("Special:" +:+ py_format (json_of_key special_page)))
  | _ => Raise AttributeError
  end.

(** The body of [for page_id, page_info in ...items()]. *)
Fixpoint append_articles (all_pages : list string) (pages : list (string * json))
  : pyres (list string) :=
  match pages with
  | [] => Ret all_pages
  | (page_id, page_info) :: pages' =>
      pyres_bind (article_item page_info) (fun item =>
        append_articles (all_pages ++ [item]) pages')
  end.

(** The body of [for image in ...]. *)
Fixpoint append_images (all_images : list string) (images : list json)
  : pyres (list string) :=
  match images with
  | [] => Ret all_images
  | image :: images' =>
      pyres_bind (media_item image) (fun item =>
        append_images (all_images ++ [item]) images')
  end.

(** ** Paginated listing walkers *)

Definition all_pages_params (gapnamespace : json) : pydict :=
  [ (KStr "action", JStr "query");
    (KStr "generator", JStr "allpages");
    (KStr "gapnamespace", gapnamespace);
    (KStr "gaplimit", JStr "50");
    (KStr "prop", JStr "info");
    (KStr "inprop", JStr "url");
    (KStr "format", JStr "json");
    (KStr "continue", JStr "") ].

Definition all_images_params : pydict :=
  [ (KStr "action", JStr "query");
    (KStr "list", JStr "allimages");
    (KStr "aiprop", JStr "url");
    (KStr "ailimit", JStr "50");
    (KStr "format", JStr "json");
    (KStr "continue", JStr "") ].

(** Lines 95-97. *)
Definition collect_pages (data : json) (all_pages : list string) : pyres (list string) :=
  pyres_bind (py_contains "query" data) (fun has_query =>
    if has_query then
      pyres_bind (py_getitem data "query") (fun q =>
      pyres_bind (py_getitem q "pages") (fun pages =>
      pyres_bind (py_items pages) (fun kvs =>
        append_articles all_pages kvs)))
    else Ret all_pages).

(** Lines 133-135. *)
Definition collect_images (data : json) (all_images : list string) : pyres (list string) :=
  pyres_bind (py_contains "query" data) (fun has_query =>
    if has_query then
      pyres_bind (py_getitem data "query") (fun q =>
      pyres_bind (py_getitem q "allimages") (fun images =>
      pyres_bind (py_iter images) (fun l =>
        append_images all_images l)))
    else Ret all_images).

(** Lines 104-112 and 140-145, the choice of the object to merge:
    the modern [continue] object, else the [categories] member of the
    legacy [query-continue] object, else none ([break]). *)
Definition continuation_object (data : json) : pyres (option json) :=
  pyres_bind (py_contains "continue" data) (fun has_continue =>
    if has_continue then
      pyres_bind (py_getitem data "continue") (fun c => Ret (Some c))
    else
      pyres_bind (py_contains "query-continue" data) (fun has_legacy =>
        if has_legacy then
          pyres_bind (py_getitem data "query-continue") (fun qc =>
          pyres_bind (py_getitem qc "categories") (fun c => Ret (Some c)))
        else Ret None)).

(** Lines 104-112 and 140-145: the parameters of the next request, or
    [None] for [break]. *)
Definition next_params (data : json) (params : pydict) : pyres (option pydict) :=
  pyres_bind (continuation_object data) (fun found =>
    match found with
    | Some c => pyres_bind (dict_update params c) (fun params' => Ret (Some params'))
    | None => Ret None
    end).

Fixpoint get_all_pages_loop (fuel : nat) (api_url : string) (params : pydict)
    (all_pages : list string) : M (list string) :=
  match fuel with
  | O => out_of_fuel
  | S fuel' =>
      response <- http_get api_url (Some params) ;;
      data <- lift (resp_json response) ;;
      all_pages' <- lift (collect_pages data all_pages) ;;
      delay ;;
      next <- lift (next_params data params) ;;
      match next with
      | Some params' => get_all_pages_loop fuel' api_url params' all_pages'
      | None => ret all_pages'
      end
  end.

Definition get_all_pages (fuel : nat) (api_url : string) (gapnamespace : json)
  : M (list string) :=
  get_all_pages_loop fuel api_url (all_pages_params gapnamespace) [].

Fixpoint get_all_images_loop (fuel : nat) (api_url : string) (params : pydict)
    (all_images : list string) : M (list string) :=
  match fuel with
  | O => out_of_fuel
  | S fuel' =>
      response <- http_get api_url (Some params) ;;
      data <- lift (resp_json response) ;;
      all_images' <- lift (collect_images data all_images) ;;
      delay ;;
      next <- lift (next_params data params) ;;
      match next with
      | Some params' => get_all_images_loop fuel' api_url params' all_images'
      | None => ret all_images'
      end
  end.

Definition get_all_images (fuel : nat) (api_url : string) : M (list string) :=
  get_all_images_loop fuel api_url all_images_params [].

(** ** Special pages *)

Definition special_pages_params : pydict :=
  [ (KStr "action", JStr "query");
    (KStr "meta", JStr "siteinfo");
    (KStr "siprop", JStr "specialpagealiases");
    (KStr "format", JStr "json") ].

(** [special_pages.update(aliases)] *)
Fixpoint pyset_update (s : pyset) (l : list json) : pyres pyset :=
  match l with
  | [] => Ret s
  | v :: l' =>
      pyres_bind (py_hash v) (fun k => pyset_update (pyset_add k s) l')
  end.

(** [entry.get('aliases', [])] *)
Definition get_aliases (entry : json) : pyres json :=
  match entry with
  | JObj kvs =>
      match obj_get "aliases" kvs with
      | Some v => Ret v
      | None => Ret (JArr [])
      end
  | _ => Raise AttributeError
  end.

(** Lines 166-167. *)
Definition add_entry (special_pages : pyset) (entry : json) : pyres pyset :=
  pyres_bind (py_getitem entry "realname") (fun realname =>
  pyres_bind (py_hash realname) (fun k =>
  pyres_bind (get_aliases entry) (fun aliases =>
  pyres_bind (py_iter aliases) (fun l =>
    pyset_update (pyset_add k special_pages) l)))).

(** Lines 165-167. *)
Fixpoint collect_special_pages (special_pages : pyset) (entries : list json)
  : pyres pyset :=
  match entries with
  | [] => Ret special_pages
  | entry :: entries' =>
      pyres_bind (add_entry special_pages entry) (fun s =>
        collect_special_pages s entries')
  end.

(** Lines 169-171. *)
Fixpoint special_items (template_url : json) (items : gset string)
    (special_pages : list pykey) : pyres (gset string) :=
  match special_pages with
  | [] => Ret items
  | special_page :: rest =>
      pyres_bind (special_item template_url special_page) (fun item =>
        special_items template_url ({[ item ]} ∪ items) rest)
  end.

Definition special_pages_of (data : json) (template_url : json) : pyres (gset string) :=
  pyres_bind (pyres_bind (py_getitem data "query")
                (fun q => py_getitem q "specialpagealiases")) (fun special_pages_raw =>
  pyres_bind (pyres_bind (py_getitem data "query")
                (fun q => py_getitem q "specialpagealiases")) (fun aliases =>
  pyres_bind (py_iter aliases) (fun entries =>
  pyres_bind (collect_special_pages [] entries) (fun special_pages =>
    special_items template_url ∅ special_pages)))).

Definition get_special_pages (api_url : string) (template_url : json)
  : M (gset string) :=
  rate_limited (
    response <- http_get api_url (Some special_pages_params) ;;
    data <- lift (resp_json response) ;;
    lift (special_pages_of data template_url)).

(** ** Orchestrator *)

(** Lines 197-204. *)
Fixpoint namespace_loop (fuel : nat) (api_url : string) (nss : list json) : M unit :=
  match nss with
  | [] => ret tt
  | ns :: rest =>
      id <- lift (py_getitem ns "id") ;;
      negative <- lift (py_lt0 id) ;;
      if negative then namespace_loop fuel api_url rest
      else
        pages <- get_all_pages fuel api_url id ;;
        save_items pages ;;
        namespace_loop fuel api_url rest
  end.

Definition main (fuel : nat) (wiki_url : string) : M unit :=
  found <- get_api_url wiki_url ;;
  match found with
  | None | Some EmptyString => ret tt
  | Some api_url =>
      info <- get_site_info api_url ;;
      let site_info := fst info in
      let namespaces := snd info in
      server <- lift (py_getitem site_info "server") ;;
      server_url <- lift (urljoin (JStr api_url) server) ;;
      articlepath <- lift (py_getitem site_info "articlepath") ;;
      template_url <- lift (urljoin server_url articlepath) ;;
      lift (py_len_check namespaces) ;;
      nss <- lift (py_values namespaces) ;;
      namespace_loop fuel api_url nss ;;
      images <- get_all_images fuel api_url ;;
      save_items images ;;
      specials <- get_special_pages api_url template_url ;;
      save_items (elements specials)
  end.

(** Lines 216-222: [args.delay] is parsed and not read again. *)
Definition script (fuel : nat) (args : cli_args) : M unit :=
  main fuel (args_url args).

(** One walk per listed namespace, each flushed to the sink: what the
    namespace loop is compared with. *)
Fixpoint walk_each (fuel : nat) (api_url : string) (ids : list Z) : M unit :=
  match ids with
  | [] => ret tt
  | z :: rest =>
      pages <- get_all_pages fuel api_url (JNum z) ;;
      save_items pages ;;
      walk_each fuel api_url rest
  end.

Definition result_of {A : Type} (r : outcome A * list event * world) : outcome A :=
  fst (fst r).

Definition events_of {A : Type} (r : outcome A * list event * world) : list event :=
  snd (fst r).

Definition world_of {A : Type} (r : outcome A * list event * world) : world :=
  snd r.


(** ** Specifications of runs *)

(** [prepend evs r]: the run [r] after the events [evs]. *)
Definition prepend {A : Type} (evs : list event)
    (r : outcome A * list event * world) : outcome A * list event * world :=
  (result_of r, evs ++ events_of r, world_of r).

(** [spec m P Q]: every event of [m] satisfies [P], and so does [Q] the
    value of [m] when it returns one. *)
Definition spec {A : Type} (m : M A) (P : event -> Prop) (Q : A -> Prop) : Prop :=
  forall w,
    Forall P (events_of (m w)) /\
    (forall a, result_of (m w) = Done a -> Q a).

(** What the server is assumed to answer, when something is. *)
Definition server_replies (R : response -> Prop) : Prop :=
  forall url params w r w', requests_get url params w = (Ret r, w') -> R r.

(** An item of one of the three kinds. *)
Definition some_item (item : string) : Prop :=
  exists kind, In kind item_kinds /\ is_item kind item.



(** [paced api_url evs]: [evs] is a sequence of requests with parameters
    to [api_url], each followed by a pause, except possibly the last. *)
Inductive paced (api_url : string) : list event -> Prop :=
| paced_nil : paced api_url []
| paced_last (params : pydict) : paced api_url [EvGet api_url (Some params)]
| paced_step (params : pydict) (seconds : Z) (rest : list event) :
    paced api_url rest ->
    paced api_url (EvGet api_url (Some params) :: EvSleep seconds :: rest).

(** The item of the special page [name]. *)
Definition special_url (template name : string) : string :=
  "mediawiki-special:" +:+ replace_dollar1 template ("Special:" +:+ name).

(** A set of names, as the list of its elements in order of first
    insertion. *)
Definition add_name (a : string) (l : list string) : list string :=
  if bool_decide (a ∈ l) then l else l ++ [a].

Definition add_names (l names : list string) : list string :=
  fold_left (fun l a => add_name a l) names l.

(** [entry_names entry names]: [entry] is an alias entry with a string
    [realname] and, if it has an [aliases] field, a list of strings there;
    [names] are its realname and then its aliases. *)
Definition entry_names (entry : json) (names : list string) : Prop :=
  exists kvs realname aliases,
    entry = JObj kvs /\
    obj_get "realname" kvs = Some (JStr realname) /\
    (obj_get "aliases" kvs = None /\ aliases = [] \/
     obj_get "aliases" kvs = Some (JArr (map JStr aliases))) /\
    names = realname :: aliases.

(** ** Rules for [spec] *)

Lemma spec_ret {A : Type} (a : A) (P : event -> Prop) (Q : A -> Prop) :
  Q a -> spec (ret a) P Q.
Proof. intros Ha w. split; [constructor | intros a' [= <-]; exact Ha]. Qed.

Lemma spec_lift {A : Type} (r : pyres A) (P : event -> Prop) (Q : A -> Prop) :
  (forall a, r = Ret a -> Q a) -> spec (lift r) P Q.
Proof.
  intros Hr w. unfold lift. destruct r as [a | e]; cbn.
  - split; [constructor | intros a' [= <-]; auto].
  - split; [constructor | discriminate].
Qed.

Lemma spec_emit (e : event) (P : event -> Prop) (Q : unit -> Prop) :
  P e -> Q tt -> spec (emit e) P Q.
Proof.
  intros He Hq w. split; cbn.
  - repeat constructor. exact He.
  - intros [] _. exact Hq.
Qed.

Lemma spec_out_of_fuel {A : Type} (P : event -> Prop) (Q : A -> Prop) :
  spec (@out_of_fuel A) P Q.
Proof. intros w. split; [constructor | discriminate]. Qed.

Lemma spec_http_get (url : string) (params : option pydict)
    (P : event -> Prop) (R : response -> Prop) :
  server_replies R -> P (EvGet url params) -> spec (http_get url params) P R.
Proof.
  intros Hsrv Hp w. unfold http_get.
  destruct (requests_get url params w) as [[r | e] w'] eqn:Hget; cbn.
  - split; [repeat constructor; exact Hp |].
    intros a [= <-]. eapply Hsrv, Hget.
  - split; [repeat constructor; exact Hp | discriminate].
Qed.

Lemma spec_bind {A B : Type} (m : M A) (f : A -> M B)
    (P : event -> Prop) (Q : A -> Prop) (R : B -> Prop) :
  spec m P Q -> (forall a, Q a -> spec (f a) P R) -> spec (bind m f) P R.
Proof.
  intros Hm Hf w. unfold bind.
  destruct (Hm w) as [Hev Hres].
  destruct (m w) as [[[a | e |] ev] w'] eqn:Hmw; cbn in *.
  - destruct (Hf a (Hres a eq_refl) w') as [Hev' Hres'].
    destruct (f a w') as [[r ev'] w''] eqn:Hfw; cbn in *.
    split; [apply Forall_app; split; assumption | exact Hres'].
  - split; [assumption | discriminate].
  - split; [assumption | discriminate].
Qed.

Lemma spec_weaken {A : Type} (m : M A) (P : event -> Prop) (Q Q' : A -> Prop) :
  spec m P Q -> (forall a, Q a -> Q' a) -> spec m P Q'.
Proof.
  intros Hm Hq w. destruct (Hm w) as [Hev Hres]. split; [exact Hev | auto].
Qed.

Lemma spec_delay (P : event -> Prop) (Q : unit -> Prop) :
  P (EvSleep delaySeconds) -> Q tt -> spec delay P Q.
Proof. apply spec_emit. Qed.

Lemma spec_rate_limited {A : Type} (func : M A) (P : event -> Prop) (Q : A -> Prop) :
  P (EvSleep delaySeconds) -> spec func P Q -> spec (rate_limited func) P Q.
Proof.
  intros Hp Hf. unfold rate_limited.
  eapply spec_bind; [apply (spec_delay P (fun _ => True)); auto | auto].
Qed.

Lemma server_replies_any : server_replies (fun _ => True).
Proof. intros url params w r w' _. exact I. Qed.

(** ** Dictionaries under [update] *)

Lemma pykey_eqb_refl (k : pykey) : pykey_eqb k k = true.
Proof. unfold pykey_eqb. apply bool_decide_eq_true. reflexivity. Qed.

Lemma pykey_eqb_trans_false (a b c : pykey) :
  pykey_eqb a b = false -> pykey_eqb c b = true -> pykey_eqb a c = false.
Proof.
  unfold pykey_eqb. rewrite !bool_decide_eq_false, bool_decide_eq_true.
  intros Hab Hcb Hac. apply Hab. congruence.
Qed.

Lemma pykey_eqb_trans (a b c : pykey) :
  pykey_eqb a b = true -> pykey_eqb b c = true -> pykey_eqb a c = true.
Proof.
  unfold pykey_eqb. rewrite !bool_decide_eq_true. congruence.
Qed.

Lemma dict_get_set_other (k k' : pykey) (v : json) (d : pydict) :
  pykey_eqb k k' = false -> dict_get k (dict_set k' v d) = dict_get k d.
Proof.
  intros Hne. induction d as [| [k0 v0] d IH]; cbn.
  - rewrite Hne. reflexivity.
  - destruct (pykey_eqb k' k0) eqn:Hk'; cbn.
    + rewrite (pykey_eqb_trans_false k k' k0 Hne);
        [reflexivity |].
      unfold pykey_eqb in *. rewrite bool_decide_eq_true in *. congruence.
    + rewrite IH. reflexivity.
Qed.

Lemma dict_get_set_same (k k' : pykey) (v : json) (d : pydict) :
  pykey_eqb k k' = true -> dict_get k (dict_set k' v d) = Some v.
Proof.
  intros Heq. induction d as [| [k0 v0] d IH]; cbn.
  - rewrite Heq. reflexivity.
  - destruct (pykey_eqb k' k0) eqn:Hk'; cbn.
    + rewrite (pykey_eqb_trans k k' k0 Heq Hk'). reflexivity.
    + destruct (pykey_eqb k k0) eqn:Hk0; [| exact IH].
      exfalso. unfold pykey_eqb in *.
      rewrite bool_decide_eq_true in Heq, Hk0.
      rewrite bool_decide_eq_false in Hk'. congruence.
Qed.


Lemma update_from_obj_other (k : string) (kvs : list (string * json)) (d : pydict) :
  existsb (fun kv => String.eqb k (fst kv)) kvs = false ->
  dict_get (KStr k) (update_from_obj d kvs) = dict_get (KStr k) d.
Proof.
  unfold update_from_obj. revert d.
  induction kvs as [| [k0 v0] kvs IH]; intros d Hno; cbn in *; [reflexivity |].
  apply orb_false_iff in Hno as [Hk0 Hrest].
  rewrite IH by exact Hrest. apply dict_get_set_other.
  unfold pykey_eqb. apply bool_decide_eq_false. cbn.
  intros [= ->]. rewrite String.eqb_refl in Hk0. discriminate.
Qed.







(** ** The items built by the normalizer *)

Lemma article_item_is_item (page_info : json) (item : string) :
  article_item page_info = Ret item -> is_item "mediawiki-article" item.
Proof.
  unfold article_item. destruct (py_getitem page_info "fullurl") as [u |];
    cbn; [| discriminate].
  intros [= <-]. exists (py_format u). reflexivity.
Qed.

Lemma media_item_is_item (image : json) (item : string) :
  media_item image = Ret item -> is_item "mediawiki-media" item.
Proof.
  unfold media_item. destruct (py_getitem image "url") as [u |];
    cbn; [| discriminate].
  intros [= <-]. exists (py_format u). reflexivity.
Qed.

Lemma special_item_is_item (template_url : json) (k : pykey) (item : string) :
  special_item template_url k = Ret item -> is_item "mediawiki-special" item.
Proof.
  unfold special_item. destruct template_url; try discriminate.
  intros [= <-]. eexists. reflexivity.
Qed.

Lemma append_articles_items (pages : list (string * json)) (acc acc' : list string) :
  append_articles acc pages = Ret acc' ->
  Forall (is_item "mediawiki-article") acc ->
  Forall (is_item "mediawiki-article") acc'.
Proof.
  revert acc. induction pages as [| [page_id page_info] pages IH];
    intros acc Happ Hacc; cbn in *.
  - injection Happ as <-. exact Hacc.
  - destruct (article_item page_info) as [item |] eqn:Hitem; cbn in *;
      [| discriminate].
    apply (IH _ Happ). apply Forall_app. split; [exact Hacc |].
    repeat constructor. eapply article_item_is_item, Hitem.
Qed.

Lemma append_images_items (images : list json) (acc acc' : list string) :
  append_images acc images = Ret acc' ->
  Forall (is_item "mediawiki-media") acc ->
  Forall (is_item "mediawiki-media") acc'.
Proof.
  revert acc. induction images as [| image images IH];
    intros acc Happ Hacc; cbn in *.
  - injection Happ as <-. exact Hacc.
  - destruct (media_item image) as [item |] eqn:Hitem; cbn in *;
      [| discriminate].
    apply (IH _ Happ). apply Forall_app. split; [exact Hacc |].
    repeat constructor. eapply media_item_is_item, Hitem.
Qed.

Lemma collect_pages_items (data : json) (acc acc' : list string) :
  collect_pages data acc = Ret acc' ->
  Forall (is_item "mediawiki-article") acc ->
  Forall (is_item "mediawiki-article") acc'.
Proof.
  unfold collect_pages. intros H Hacc.
  destruct (py_contains "query" data) as [[|] |]; cbn in *; try discriminate.
  - destruct (py_getitem data "query") as [q |]; cbn in *; try discriminate.
    destruct (py_getitem q "pages") as [pages |]; cbn in *; try discriminate.
    destruct (py_items pages) as [kvs |]; cbn in *; try discriminate.
    eapply append_articles_items; eassumption.
  - injection H as <-. exact Hacc.
Qed.

Lemma collect_images_items (data : json) (acc acc' : list string) :
  collect_images data acc = Ret acc' ->
  Forall (is_item "mediawiki-media") acc ->
  Forall (is_item "mediawiki-media") acc'.
Proof.
  unfold collect_images. intros H Hacc.
  destruct (py_contains "query" data) as [[|] |]; cbn in *; try discriminate.
  - destruct (py_getitem data "query") as [q |]; cbn in *; try discriminate.
    destruct (py_getitem q "allimages") as [images |]; cbn in *; try discriminate.
    destruct (py_iter images) as [l |]; cbn in *; try discriminate.
    eapply append_images_items; eassumption.
  - injection H as <-. exact Hacc.
Qed.

Lemma special_items_items (template_url : json) (names : list pykey)
    (acc items : gset string) :
  special_items template_url acc names = Ret items ->
  (forall x, x ∈ acc -> is_item "mediawiki-special" x) ->
  forall x, x ∈ items -> is_item "mediawiki-special" x.
Proof.
  revert acc. induction names as [| k names IH]; intros acc H Hacc; cbn in *.
  - injection H as <-. exact Hacc.
  - destruct (special_item template_url k) as [item |] eqn:Hitem; cbn in *;
      [| discriminate].
    apply (IH _ H). intros x Hx.
    apply elem_of_union in Hx as [Hx | Hx]; [| auto].
    apply elem_of_singleton in Hx as ->.
    eapply special_item_is_item, Hitem.
Qed.

Lemma special_pages_of_items (data template_url : json) (items : gset string) :
  special_pages_of data template_url = Ret items ->
  forall x, x ∈ items -> is_item "mediawiki-special" x.
Proof.
  unfold special_pages_of. intros H.
  destruct (pyres_bind (py_getitem data "query") _) as [raw |]; cbn in *;
    try discriminate.
  destruct (py_iter raw) as [entries |]; cbn in *; try discriminate.
  destruct (collect_special_pages [] entries) as [names |]; cbn in *;
    try discriminate.
  eapply special_items_items; [exact H |].
  intros x Hx. apply not_elem_of_empty in Hx. contradiction.
Qed.

(** ** The walkers *)

Section Walk.

Variable api_url : string.
Variable P : event -> Prop.
Variable R : response -> Prop.
Variable Inv : pydict -> Prop.

Hypothesis server_ok : server_replies R.
Hypothesis sleep_ok : P (EvSleep delaySeconds).
Hypothesis get_ok : forall params, Inv params -> P (EvGet api_url (Some params)).
Hypothesis next_ok :
  forall r data params params',
    R r -> resp_json r = Ret data -> Inv params ->
    next_params data params = Ret (Some params') -> Inv params'.

Ltac walk_step IH Hinv collect_ok kind :=
  cbn [get_all_pages_loop get_all_images_loop];
  eapply spec_bind; [apply spec_http_get; [exact server_ok | apply get_ok; assumption] |];
  intros r Hr;
  eapply spec_bind; [apply (spec_lift _ _ (fun data => resp_json r = Ret data)); auto |];
  intros data Hdata;
  eapply (spec_bind _ _ _ (Forall (is_item kind)));
    [apply spec_lift; intros acc' Hacc'; eapply collect_ok; eassumption |];
  intros acc' Hacc';
  eapply spec_bind; [apply (spec_delay _ (fun _ => True)); [exact sleep_ok | exact I] |];
  intros _ _;
  match goal with
  | |- spec (bind (lift (next_params ?d ?p)) _) _ _ =>
      eapply (spec_bind _ _ _ (fun next => next_params d p = Ret next));
        [apply spec_lift; auto |]
  end;
  intros [params' |] Hnext;
  [ apply IH; [exact (next_ok _ _ _ _ Hr Hdata Hinv Hnext) | assumption]
  | apply spec_ret; assumption ].

Lemma get_all_pages_loop_spec (fuel : nat) (params : pydict) (acc : list string) :
  Inv params ->
  Forall (is_item "mediawiki-article") acc ->
  spec (get_all_pages_loop fuel api_url params acc) P
       (Forall (is_item "mediawiki-article")).
Proof.
  revert params acc. induction fuel as [| fuel IH]; intros params acc Hinv Hacc.
  - apply spec_out_of_fuel.
  - walk_step IH Hinv collect_pages_items "mediawiki-article".
Qed.

Lemma get_all_images_loop_spec (fuel : nat) (params : pydict) (acc : list string) :
  Inv params ->
  Forall (is_item "mediawiki-media") acc ->
  spec (get_all_images_loop fuel api_url params acc) P
       (Forall (is_item "mediawiki-media")).
Proof.
  revert params acc. induction fuel as [| fuel IH]; intros params acc Hinv Hacc.
  - apply spec_out_of_fuel.
  - walk_step IH Hinv collect_images_items "mediawiki-media".
Qed.

End Walk.

(** ** The whole run *)

Section Run.

Variable P : event -> Prop.

Hypothesis sleep_ok : P (EvSleep delaySeconds).
Hypothesis get_ok : forall url params, P (EvGet url params).
Hypothesis append_ok :
  forall items,
    Forall some_item items ->
    P (EvAppend "items.txt" (map (fun item => item +:+ newline) items)).

Ltac spec_any :=
  repeat first
    [ apply spec_ret; exact I
    | apply spec_lift; intros; exact I
    | apply spec_delay; [exact sleep_ok | exact I]
    | apply spec_http_get; [apply server_replies_any | apply get_ok]
    | eapply (spec_bind _ _ _ (fun _ => True)); [| intros ? _]
    | match goal with
      | |- spec (match ?x with _ => _ end) _ _ => destruct x
      end ].

Lemma get_api_url_spec (wiki_url : string) :
  spec (get_api_url wiki_url) P (fun _ => True).
Proof. unfold get_api_url. cbn zeta. spec_any. Qed.

Lemma get_site_info_spec (api_url : string) :
  spec (get_site_info api_url) P (fun _ => True).
Proof.
  unfold get_site_info. apply spec_rate_limited; [exact sleep_ok |]. spec_any.
Qed.

Lemma get_all_pages_spec (fuel : nat) (api_url : string) (gapnamespace : json) :
  spec (get_all_pages fuel api_url gapnamespace) P
       (Forall (is_item "mediawiki-article")).
Proof.
  unfold get_all_pages.
  apply (get_all_pages_loop_spec api_url P (fun _ => True) (fun _ => True));
    auto using server_replies_any.
Qed.

Lemma get_all_images_spec (fuel : nat) (api_url : string) :
  spec (get_all_images fuel api_url) P (Forall (is_item "mediawiki-media")).
Proof.
  unfold get_all_images.
  apply (get_all_images_loop_spec api_url P (fun _ => True) (fun _ => True));
    auto using server_replies_any.
Qed.

Lemma get_special_pages_spec (api_url : string) (template_url : json) :
  spec (get_special_pages api_url template_url) P
       (fun items => forall x, x ∈ items -> is_item "mediawiki-special" x).
Proof.
  unfold get_special_pages. apply spec_rate_limited; [exact sleep_ok |].
  eapply (spec_bind _ _ _ (fun _ => True)); [spec_any | intros r _].
  eapply (spec_bind _ _ _ (fun _ => True)); [spec_any | intros data _].
  apply spec_lift. intros items. apply special_pages_of_items.
Qed.

Lemma save_items_spec (items : list string) :
  Forall some_item items -> spec (save_items items) P (fun _ => True).
Proof. intros H. apply spec_emit; [apply append_ok, H | exact I]. Qed.

Lemma items_of_kind (kind : string) (items : list string) :
  In kind item_kinds -> Forall (is_item kind) items -> Forall some_item items.
Proof.
  intros Hk H. eapply Forall_impl; [exact H |].
  intros x Hx. exists kind. split; assumption.
Qed.

Lemma namespace_loop_spec (fuel : nat) (api_url : string) (nss : list json) :
  spec (namespace_loop fuel api_url nss) P (fun _ => True).
Proof.
  induction nss as [| ns rest IH]; cbn [namespace_loop].
  - apply spec_ret. exact I.
  - eapply (spec_bind _ _ _ (fun _ => True)); [spec_any | intros id _].
    eapply (spec_bind _ _ _ (fun _ => True)); [spec_any | intros [|] _].
    + exact IH.
    + eapply spec_bind; [apply get_all_pages_spec |]. intros pages Hpages.
      eapply (spec_bind _ _ _ (fun _ => True)); [| intros _ _; exact IH].
      apply save_items_spec. eapply items_of_kind; [| exact Hpages].
      cbn. auto.
Qed.

Lemma main_spec (fuel : nat) (wiki_url : string) :
  spec (main fuel wiki_url) P (fun _ => True).
Proof.
  unfold main.
  eapply (spec_bind _ _ _ (fun _ => True)); [apply get_api_url_spec |].
  intros [[| c api_url] |] _; try (apply spec_ret; exact I).
  eapply (spec_bind _ _ _ (fun _ => True)); [apply get_site_info_spec |].
  intros info _. cbn zeta.
  do 6 (eapply (spec_bind _ _ _ (fun _ => True)); [spec_any | intros ? _]).
  eapply (spec_bind _ _ _ (fun _ => True)); [apply namespace_loop_spec |].
  intros _ _.
  eapply spec_bind; [apply get_all_images_spec |]. intros images Himages.
  eapply (spec_bind _ _ _ (fun _ => True)).
  { apply save_items_spec. eapply items_of_kind; [| exact Himages]. cbn. auto. }
  intros _ _.
  eapply spec_bind; [apply get_special_pages_spec |]. intros specials Hsp.
  apply save_items_spec. apply Forall_forall. intros x Hx.
  exists "mediawiki-special". split; [cbn; auto |].
  apply Hsp. apply elem_of_elements. exact Hx.
Qed.

End Run.

(** ** Endpoint resolution *)

(** C8. When the given URL already contains the API script marker
    [api.php], endpoint resolution returns that URL unchanged, performs
    no request and no other effect, and leaves the world as it was. *)
Theorem get_api_url_fast_path (wiki_url : string) (w : world) :
  str_contains "api.php" wiki_url = true ->
  get_api_url wiki_url w = (Done (Some wiki_url), [], w).
Proof.
  intros Hmarker. unfold get_api_url. rewrite Hmarker. reflexivity.
Qed.


(** ** Special-page aliases *)

Lemma collect_special_pages_app (s : pyset) (pre post : list json) :
  collect_special_pages s (pre ++ post) =
  pyres_bind (collect_special_pages s pre)
             (fun s' => collect_special_pages s' post).
Proof.
  revert s. induction pre as [| e pre IH]; intros s; cbn; [reflexivity |].
  destruct (add_entry s e) as [s' |]; cbn; [apply IH | reflexivity].
Qed.

(** C10. An alias entry that has no [aliases] field does not make the
    enumeration fail: it adds its [realname] and nothing else to the set
    of names, and the entries before and after it are processed as they
    would be without it. *)
Theorem entry_without_aliases (kvs : list (string * json)) (realname : json)
    (k : pykey) (s : pyset) (pre post : list json) :
  obj_get "aliases" kvs = None ->
  obj_get "realname" kvs = Some realname ->
  py_hash realname = Ret k ->
  add_entry s (JObj kvs) = Ret (pyset_add k s) /\
  collect_special_pages s (pre ++ JObj kvs :: post) =
    pyres_bind (collect_special_pages s pre)
               (fun s' => collect_special_pages (pyset_add k s') post).
Proof.
  intros Hal Hrn Hk.
  assert (Hadd : forall s0, add_entry s0 (JObj kvs) = Ret (pyset_add k s0)).
  { intros s0. unfold add_entry, get_aliases. cbn. rewrite Hrn. cbn.
    rewrite Hk. cbn. rewrite Hal. reflexivity. }
  split; [apply Hadd |].
  rewrite collect_special_pages_app.
  destruct (collect_special_pages s pre) as [s' |]; cbn; [| reflexivity].
  rewrite Hadd. reflexivity.
Qed.

(** ** Walks and responses without a [query] key *)

Lemma collect_pages_no_query (data : json) (acc : list string) :
  py_contains "query" data = Ret false -> collect_pages data acc = Ret acc.
Proof. intros H. unfold collect_pages. rewrite H. reflexivity. Qed.

Lemma collect_images_no_query (data : json) (acc : list string) :
  py_contains "query" data = Ret false -> collect_images data acc = Ret acc.
Proof. intros H. unfold collect_images. rewrite H. reflexivity. Qed.

Ltac run_page Hget Hdata Hcollect :=
  cbn [get_all_pages_loop get_all_images_loop];
  unfold bind at 1; unfold http_get at 1; rewrite Hget;
  unfold bind at 1; unfold lift at 1; rewrite Hdata;
  unfold bind at 1; unfold lift at 1; rewrite Hcollect;
  unfold bind at 1; unfold delay at 1, emit at 1;
  unfold bind at 1; unfold lift at 1.

Lemma continuation_object_modern (data c : json) :
  py_getitem data "continue" = Ret c ->
  continuation_object data = Ret (Some c).
Proof.
  intros Hc. destruct data as [| b | z | s | l | kvs]; try discriminate.
  unfold continuation_object. cbn in *.
  destruct (obj_get "continue" kvs) as [x |]; [| discriminate].
  injection Hc as ->. reflexivity.
Qed.

Lemma continuation_object_absent (data : json) :
  py_contains "continue" data = Ret false ->
  py_contains "query-continue" data = Ret false ->
  continuation_object data = Ret None.
Proof.
  intros Hmodern Hlegacy. unfold continuation_object.
  rewrite Hmodern. cbn [pyres_bind]. rewrite Hlegacy. reflexivity.
Qed.

(** C4, as amended. A response that lacks the [query] key contributes
    no entry to either walk. If it carries a modern [continue] object
    that [update] accepts, the walk goes on with that object merged into
    the parameters and with the entries gathered so far; if it carries
    neither [continue] nor [query-continue], the walk ends normally with
    the entries gathered so far. *)
Theorem walk_tolerates_missing_query (fuel : nat) (api_url : string)
    (params : pydict) (acc : list string) (w w' : world) (r : response)
    (data : json) :
  requests_get api_url (Some params) w = (Ret r, w') ->
  resp_json r = Ret data ->
  py_contains "query" data = Ret false ->
  collect_pages data acc = Ret acc /\
  collect_images data acc = Ret acc /\
  (forall c params',
     py_getitem data "continue" = Ret c ->
     dict_update params c = Ret params' ->
     get_all_pages_loop (S fuel) api_url params acc w =
       prepend [EvGet api_url (Some params); EvSleep delaySeconds]
               (get_all_pages_loop fuel api_url params' acc w') /\
     get_all_images_loop (S fuel) api_url params acc w =
       prepend [EvGet api_url (Some params); EvSleep delaySeconds]
               (get_all_images_loop fuel api_url params' acc w')) /\
  (py_contains "continue" data = Ret false ->
   py_contains "query-continue" data = Ret false ->
     get_all_pages_loop (S fuel) api_url params acc w =
       (Done acc, [EvGet api_url (Some params); EvSleep delaySeconds], w') /\
     get_all_images_loop (S fuel) api_url params acc w =
       (Done acc, [EvGet api_url (Some params); EvSleep delaySeconds], w')).
Proof.
  intros Hget Hdata Hquery.
  pose proof (collect_pages_no_query data acc Hquery) as Hp.
  pose proof (collect_images_no_query data acc Hquery) as Hi.
  split; [exact Hp |]. split; [exact Hi |]. split.
  - intros c params' Hmodern Hup.
    pose proof (continuation_object_modern data c Hmodern) as Hc. split.
    + run_page Hget Hdata Hp. unfold next_params. rewrite Hc.
      cbn [pyres_bind]. rewrite Hup. cbn.
      destruct (get_all_pages_loop fuel api_url params' acc w') as [[res ev] w2].
      reflexivity.
    + run_page Hget Hdata Hi. unfold next_params. rewrite Hc.
      cbn [pyres_bind]. rewrite Hup. cbn.
      destruct (get_all_images_loop fuel api_url params' acc w') as [[res ev] w2].
      reflexivity.
  - intros Hmodern Hlegacy.
    pose proof (continuation_object_absent data Hmodern Hlegacy) as Hc. split.
    + run_page Hget Hdata Hp. unfold next_params. rewrite Hc. reflexivity.
    + run_page Hget Hdata Hi. unfold next_params. rewrite Hc. reflexivity.
Qed.

(** ** The parameters of the requests of a walk *)






(** ** Pauses *)

Lemma sleeps_of_Forall (G : Z -> Prop) (evs : list event) :
  Forall (fun e => match e with EvSleep d => G d | _ => True end) evs ->
  Forall G (sleeps_of evs).
Proof.
  induction 1 as [| e evs He _ IH]; cbn; [constructor |].
  destruct e; cbn in *; try exact IH. constructor; assumption.
Qed.

(** C3: what the script does with the delay flag. A run of the script
    does not depend on [--delay]: it is the run without the flag, and
    every pause of it lasts 0 seconds. *)
Theorem delay_flag_ignored (fuel : nat) (url : string) (d : option string)
    (w : world) :
  script fuel (CliArgs url d) w = script fuel (CliArgs url None) w /\
  Forall (fun seconds => seconds = 0)
         (sleeps_of (events_of (script fuel (CliArgs url d) w))).
Proof.
  split; [reflexivity |].
  apply sleeps_of_Forall. unfold script. cbn [args_url].
  apply (main_spec (fun e => match e with EvSleep s => s = 0 | _ => True end));
    [reflexivity | intros; exact I | intros; exact I].
Qed.

(** ** The lines of the output file *)

Lemma lines_of_Forall (G : string -> Prop) (evs : list event) :
  Forall (fun e => match e with EvAppend _ lines => Forall G lines | _ => True end) evs ->
  Forall G (lines_of evs).
Proof.
  induction 1 as [| e evs He _ IH]; cbn; [constructor |].
  destruct e; cbn in *; try exact IH. apply Forall_app. split; assumption.
Qed.

Lemma item_lines (items : list string) :
  Forall some_item items ->
  Forall item_line (map (fun item => item +:+ newline) items).
Proof.
  intros H. apply List.Forall_map. eapply Forall_impl; [exact H |].
  intros x (kind & Hk & Hx). exists kind, x. auto.
Qed.

(** C1, as amended. Every line that a run appends to the output file
    is an item [<kind>:<url>] followed by a newline, with [kind] one of
    [mediawiki-article], [mediawiki-media] and [mediawiki-special]. An
    article entry maps to [mediawiki-article:] followed by its [fullurl]
    field, a media entry to [mediawiki-media:] followed by its [url]
    field, and a special-page name to [mediawiki-special:] followed by
    the article-path template with [Special:<name>] in place of [$1]. *)
Theorem discovered_items_form (fuel : nat) (wiki_url : string) (w : world)
    (entry image : json) (fullurl url template name : string) :
  py_getitem entry "fullurl" = Ret (JStr fullurl) ->
  py_getitem image "url" = Ret (JStr url) ->
  Forall item_line (lines_of (events_of (main fuel wiki_url w))) /\
  article_item entry = Ret ("mediawiki-article:" +:+ fullurl) /\
  media_item image = Ret ("mediawiki-media:" +:+ url) /\
  special_item (JStr template) (KStr name) =
    Ret ("mediawiki-special:" +:+ replace_dollar1 template ("Special:" +:+ name)).
Proof.
  intros Hfull Hurl. repeat split.
  - apply lines_of_Forall.
    apply (main_spec (fun e => match e with
                               | EvAppend _ lines => Forall item_line lines
                               | _ => True
                               end));
      [exact I | intros; exact I | apply item_lines].
  - unfold article_item. rewrite Hfull. reflexivity.
  - unfold media_item. rewrite Hurl. reflexivity.
Qed.

(** ** The special pages of the example *)

Lemma add_export_entry_again :
  add_entry [KStr "Export"; KStr "ExportPages"] Mock.export_entry
  = Ret [KStr "Export"; KStr "ExportPages"].
Proof. reflexivity. Qed.

Lemma collect_export_entries (n : nat) :
  collect_special_pages [] (repeat Mock.export_entry (S n))
  = Ret [KStr "Export"; KStr "ExportPages"].
Proof.
  change (repeat Mock.export_entry (S n))
    with (Mock.export_entry :: repeat Mock.export_entry n).
  cbn [collect_special_pages].
  change (add_entry [] Mock.export_entry)
    with (@Ret pyset [KStr "Export"; KStr "ExportPages"]).
  cbn [pyres_bind].
  induction n as [| n IH]; [reflexivity |].
  cbn [repeat collect_special_pages].
  rewrite add_export_entry_again. exact IH.
Qed.

Lemma special_pages_of_export (n : nat) :
  special_pages_of (Mock.aliases_data (repeat Mock.export_entry (S n)))
                   (JStr "/wiki/$1")
  = Ret ({[ "mediawiki-special:/wiki/Special:ExportPages" ]} ∪
         ({[ "mediawiki-special:/wiki/Special:Export" ]} ∪ ∅)).
Proof.
  unfold special_pages_of, Mock.aliases_data.
  cbn [py_getitem obj_get String.eqb Ascii.eqb Bool.eqb pyres_bind py_iter].
  rewrite collect_export_entries. reflexivity.
Qed.

(** C7, as amended. For alias entries
    [{realname: "Export", aliases: ["ExportPages"]}], however many times
    the entry is repeated, and the template [/wiki/$1], the special-page
    enumeration returns exactly
    [mediawiki-special:/wiki/Special:Export] and
    [mediawiki-special:/wiki/Special:ExportPages], each once. *)
Theorem special_pages_export (n : nat) (api_url : string) (w w' : world)
    (r : response) :
  requests_get api_url (Some special_pages_params) w = (Ret r, w') ->
  resp_json r = Ret (Mock.aliases_data (repeat Mock.export_entry (S n))) ->
  exists specials,
    result_of (get_special_pages api_url (JStr "/wiki/$1") w) = Done specials /\
    elements specials ≡ₚ [ "mediawiki-special:/wiki/Special:Export";
                           "mediawiki-special:/wiki/Special:ExportPages" ].
Proof.
  intros Hget Hjson. eexists. split.
  - unfold get_special_pages, rate_limited, delay, emit, bind, http_get, lift.
    rewrite Hget, Hjson, special_pages_of_export. reflexivity.
  - apply NoDup_Permutation.
    + apply NoDup_elements.
    + apply NoDup_cons. split; [| apply NoDup_singleton].
      rewrite list_elem_of_singleton. discriminate.
    + intros x.
      rewrite elem_of_elements, !elem_of_union, !elem_of_singleton,
        !elem_of_cons, elem_of_nil, elem_of_empty.
      split; intros [Hx | [Hx | []]]; auto.
Qed.

(** ** More on strings *)

Lemma prefix_empty (s : string) : String.prefix "" s = true.
Proof. destruct s; reflexivity. Qed.

Lemma prefix_cons (c d : ascii) (p s : string) :
  String.prefix (String c p) (String d s) =
    if ascii_dec c d then String.prefix p s else false.
Proof. reflexivity. Qed.

Lemma prefix_app (p b : string) : String.prefix p (p +:+ b) = true.
Proof.
  induction p as [| c p IH]; [apply prefix_empty |].
  change (String c p +:+ b) with (String c (p +:+ b)). rewrite prefix_cons.
  destruct (ascii_dec c c); [exact IH | congruence].
Qed.

Lemma prefix_inv (p s : string) :
  String.prefix p s = true -> exists b, s = p +:+ b.
Proof.
  revert s. induction p as [| c p IH]; intros s H.
  - exists s. reflexivity.
  - destruct s as [| d s]; [discriminate |]. rewrite prefix_cons in H.
    destruct (ascii_dec c d) as [<- |]; [| discriminate].
    destruct (IH s H) as [b ->]. exists b. reflexivity.
Qed.

Lemma str_contains_unfold (needle hay : string) :
  str_contains needle hay =
    String.prefix needle hay ||
    match hay with
    | EmptyString => false
    | String _ rest => str_contains needle rest
    end.
Proof. destruct hay; reflexivity. Qed.

Lemma str_contains_app (needle a b : string) :
  str_contains needle (a +:+ needle +:+ b) = true.
Proof.
  induction a as [| c a IH].
  - change ("" +:+ needle +:+ b) with (needle +:+ b).
    rewrite str_contains_unfold, prefix_app. reflexivity.
  - change (String c a +:+ needle +:+ b) with (String c (a +:+ needle +:+ b)).
    rewrite str_contains_unfold, IH. apply orb_true_r.
Qed.

Lemma str_contains_inv (needle hay : string) :
  str_contains needle hay = true -> exists a b, hay = a +:+ needle +:+ b.
Proof.
  induction hay as [| c hay IH]; rewrite str_contains_unfold; intros H;
    apply orb_true_iff in H as [H | H].
  - apply prefix_inv in H as [b ->]. exists "", b. reflexivity.
  - discriminate.
  - apply prefix_inv in H as [b ->]. exists "", b. reflexivity.
  - destruct (IH H) as (a & b & ->). exists (String c a), b. reflexivity.
Qed.

Lemma str_contains_question_mark (c : ascii) (s : string) :
  str_contains "?" (String c s) = Ascii.eqb c "?"%char || str_contains "?" s.
Proof.
  rewrite str_contains_unfold, prefix_cons.
  destruct (ascii_dec "?"%char c) as [<- | Hne].
  - rewrite prefix_empty. reflexivity.
  - destruct (Ascii.eqb_spec c "?"%char) as [-> | _]; [congruence | reflexivity].
Qed.

Lemma before_question_mark_app (base query : string) :
  str_contains "?" base = false ->
  before_question_mark (base +:+ "?" +:+ query) = base.
Proof.
  induction base as [| c base IH]; intros H; [reflexivity |].
  rewrite str_contains_question_mark in H.
  apply orb_false_iff in H as [Hc Hbase].
  change (String c base +:+ "?" +:+ query)
    with (String c (base +:+ "?" +:+ query)).
  cbn [before_question_mark]. rewrite Hc, (IH Hbase). reflexivity.
Qed.

(** X6. [s.split('?')[0]]: the result holds no [?] and is the part of
    [s] before its first [?]; a string without [?] is returned whole. *)
Theorem before_question_mark_spec (s : string) :
  str_contains "?" (before_question_mark s) = false /\
  (str_contains "?" s = false -> before_question_mark s = s) /\
  (str_contains "?" s = true ->
   exists query, s = before_question_mark s +:+ "?" +:+ query).
Proof.
  induction s as [| c s (IH1 & IH2 & IH3)].
  - repeat split; [discriminate].
  - rewrite str_contains_question_mark. cbn [before_question_mark].
    destruct (Ascii.eqb_spec c "?"%char) as [-> | Hne].
    + repeat split; [discriminate |]. intros _. exists s. reflexivity.
    + rewrite str_contains_question_mark.
      destruct (Ascii.eqb_spec c "?"%char) as [-> | _]; [congruence |].
      cbn [orb]. split; [exact IH1 |]. split.
      * intros H. rewrite (IH2 H). reflexivity.
      * intros H. destruct (IH3 H) as [query Hq]. exists query.
        change (String c s = String c (before_question_mark s +:+ "?" +:+ query)).
        f_equal. exact Hq.
Qed.

(** ** More on endpoint resolution *)

Lemma get_api_url_slow_events (wiki_url : string) (w : world) :
  str_contains "api.php" wiki_url = false ->
  events_of (get_api_url wiki_url w) = [EvGet wiki_url None] \/
  events_of (get_api_url wiki_url w) = [EvGet wiki_url None; EvSleep delaySeconds].
Proof.
  intros Hmarker. unfold get_api_url, bind, http_get. rewrite Hmarker.
  destruct (requests_get wiki_url None w) as [[r | e] w']; cbn; [| auto].
  destruct (soup_find "EditURI" (resp_soup r)) as [link |].
  - destruct (link_href link); cbn; auto.
  - cbn. destruct (soup_find "stylesheet" (resp_soup r)) as [css_link |];
      [| cbn; auto].
    destruct (link_href css_link) as [css_url |]; [| cbn; auto].
    unfold lift. destruct (urlparse css_url); cbn; auto.
Qed.

(** X1. Endpoint resolution performs no effect at all exactly when the
    given URL contains [api.php] somewhere; for any other URL it starts
    by fetching the page. *)
Theorem get_api_url_no_effect_iff_marker (wiki_url : string) (w : world) :
  (events_of (get_api_url wiki_url w) = [] <->
   exists a b, wiki_url = a +:+ "api.php" +:+ b) /\
  ((forall a b, wiki_url <> a +:+ "api.php" +:+ b) ->
   exists rest,
     events_of (get_api_url wiki_url w) = EvGet wiki_url None :: rest).
Proof.
  split; [split |].
  - intros Hev. destruct (str_contains "api.php" wiki_url) eqn:Hmarker.
    + apply str_contains_inv, Hmarker.
    + destruct (get_api_url_slow_events wiki_url w Hmarker) as [H | H];
        rewrite H in Hev; discriminate Hev.
  - intros (a & b & ->). unfold get_api_url.
    rewrite str_contains_app. reflexivity.
  - intros Hnone. destruct (str_contains "api.php" wiki_url) eqn:Hmarker.
    + apply str_contains_inv in Hmarker as (a & b & Hab).
      destruct (Hnone a b Hab).
    + destruct (get_api_url_slow_events wiki_url w Hmarker) as [-> | ->];
        eexists; reflexivity.
Qed.

(** X5. Whatever the page and the outcome, endpoint resolution makes at
    most one request, for the given URL and without parameters, pauses at
    most once and only after that request, and writes nothing. *)
Theorem get_api_url_trace_shape (wiki_url : string) (w : world) :
  let evs := events_of (get_api_url wiki_url w) in
  evs = [] \/ evs = [EvGet wiki_url None] \/
  evs = [EvGet wiki_url None; EvSleep delaySeconds].
Proof.
  cbn zeta. destruct (str_contains "api.php" wiki_url) eqn:Hmarker.
  - left. unfold get_api_url. rewrite Hmarker. reflexivity.
  - right. apply get_api_url_slow_events, Hmarker.
Qed.

(** X2. When the fetched page has an EditURI link, endpoint resolution
    returns the target of that link up to its first [?], after the one
    request for the page and without a pause. *)
Theorem get_api_url_edit_uri (wiki_url : string) (w w' : world) (r : response)
    (link : link_tag) (base query : string) :
  str_contains "api.php" wiki_url = false ->
  requests_get wiki_url None w = (Ret r, w') ->
  soup_find "EditURI" (resp_soup r) = Some link ->
  link_href link = Some (base +:+ "?" +:+ query) ->
  str_contains "?" base = false ->
  get_api_url wiki_url w = (Done (Some base), [EvGet wiki_url None], w').
Proof.
  intros Hmarker Hget Hedit Hhref Hbase.
  unfold get_api_url, bind, http_get. rewrite Hmarker, Hget. cbn.
  rewrite Hedit, Hhref. cbn.
  rewrite (before_question_mark_app base query Hbase). reflexivity.
Qed.

(** X3. An EditURI link without a target makes endpoint resolution fail
    with [KeyError('href')]: the stylesheet fallback is not tried and no
    pause is made. *)
Theorem get_api_url_edit_uri_without_href (wiki_url : string) (w w' : world)
    (r : response) (link : link_tag) :
  str_contains "api.php" wiki_url = false ->
  requests_get wiki_url None w = (Ret r, w') ->
  soup_find "EditURI" (resp_soup r) = Some link ->
  link_href link = None ->
  get_api_url wiki_url w = (Raised (KeyError "href"), [EvGet wiki_url None], w').
Proof.
  intros Hmarker Hget Hedit Hhref.
  unfold get_api_url, bind, http_get. rewrite Hmarker, Hget. cbn.
  rewrite Hedit, Hhref. reflexivity.
Qed.

(** X4. When the fetched page has no EditURI link and its first
    stylesheet link, if there is one, has no target, endpoint resolution
    finds nothing: it returns [None] after the request and one pause. *)
Theorem get_api_url_not_found (wiki_url : string) (w w' : world) (r : response) :
  str_contains "api.php" wiki_url = false ->
  requests_get wiki_url None w = (Ret r, w') ->
  soup_find "EditURI" (resp_soup r) = None ->
  (soup_find "stylesheet" (resp_soup r) = None \/
   exists css_link, soup_find "stylesheet" (resp_soup r) = Some css_link /\
                    link_href css_link = None) ->
  get_api_url wiki_url w =
    (Done None, [EvGet wiki_url None; EvSleep delaySeconds], w').
Proof.
  intros Hmarker Hget Hedit Hcss.
  unfold get_api_url, bind, http_get. rewrite Hmarker, Hget. cbn.
  rewrite Hedit. cbn.
  destruct Hcss as [-> | (css_link & -> & ->)]; reflexivity.
Qed.

(** ** The single-shot queries *)

Lemma lines_of_app (evs evs' : list event) :
  lines_of (evs ++ evs') = lines_of evs ++ lines_of evs'.
Proof.
  induction evs as [| e evs IH]; [reflexivity |].
  destruct e; cbn; rewrite IH; [reflexivity | reflexivity |].
  apply app_assoc.
Qed.

Lemma requests_of_app (evs evs' : list event) :
  requests_of (evs ++ evs') = requests_of evs ++ requests_of evs'.
Proof.
  induction evs as [| e evs IH]; [reflexivity |].
  destruct e as [url [params |] | d | file lines]; cbn; rewrite IH; reflexivity.
Qed.

Lemma sleeps_of_app (evs evs' : list event) :
  sleeps_of (evs ++ evs') = sleeps_of evs ++ sleeps_of evs'.
Proof.
  induction evs as [| e evs IH]; [reflexivity |].
  destruct e; cbn; rewrite IH; reflexivity.
Qed.

Lemma get_site_info_events (api_url : string) (w : world) :
  events_of (get_site_info api_url w) =
    [EvSleep delaySeconds; EvGet api_url (Some site_info_params)].
Proof.
  unfold get_site_info, rate_limited, delay, emit, bind, http_get, lift.
  destruct (requests_get api_url (Some site_info_params) w) as [[r | e] w'];
    cbn; [| reflexivity].
  destruct (resp_json r) as [data |]; cbn; [| reflexivity].
  destruct (pyres_bind (py_getitem data "query") (fun q => py_getitem q "general"));
    cbn; [| reflexivity].
  destruct (pyres_bind (py_getitem data "query") (fun q => py_getitem q "namespaces"));
    reflexivity.
Qed.

Lemma get_special_pages_events (api_url : string) (template_url : json) (w : world) :
  events_of (get_special_pages api_url template_url w) =
    [EvSleep delaySeconds; EvGet api_url (Some special_pages_params)].
Proof.
  unfold get_special_pages, rate_limited, delay, emit, bind, http_get, lift.
  destruct (requests_get api_url (Some special_pages_params) w) as [[r | e] w'];
    cbn; [| reflexivity].
  destruct (resp_json r) as [data |]; cbn; [| reflexivity].
  destruct (special_pages_of data template_url); reflexivity.
Qed.

(** X9. Each of the two rate-limited queries (site information, special
    page aliases) pauses once and then makes its one request, whatever
    the server answers and whether or not the query then fails. *)
Theorem single_shot_queries_trace (api_url : string) (template_url : json)
    (w : world) :
  events_of (get_site_info api_url w) =
    [EvSleep delaySeconds; EvGet api_url (Some site_info_params)] /\
  events_of (get_special_pages api_url template_url w) =
    [EvSleep delaySeconds; EvGet api_url (Some special_pages_params)].
Proof.
  split; [apply get_site_info_events | apply get_special_pages_events].
Qed.

(** ** More on the orchestrator *)

(** X7. When endpoint resolution finds nothing, or finds the empty
    string, the run ends normally right there: it makes no further
    request and writes nothing. *)
Theorem main_without_endpoint (fuel : nat) (wiki_url : string) (w : world)
    (found : option string) :
  result_of (get_api_url wiki_url w) = Done found ->
  found = None \/ found = Some "" ->
  main fuel wiki_url w =
    (Done tt, events_of (get_api_url wiki_url w), world_of (get_api_url wiki_url w)).
Proof.
  intros Hres Hfound. unfold main, bind.
  destruct (get_api_url wiki_url w) as [[res ev] w']. cbn in *. subst res.
  destruct Hfound as [-> | ->]; cbn; rewrite app_nil_r; reflexivity.
Qed.

Lemma get_api_url_writes_nothing (wiki_url : string) (w : world) :
  lines_of (events_of (get_api_url wiki_url w)) = [].
Proof.
  destruct (str_contains "api.php" wiki_url) eqn:Hmarker.
  - unfold get_api_url. rewrite Hmarker. reflexivity.
  - destruct (get_api_url_slow_events wiki_url w Hmarker) as [-> | ->];
      reflexivity.
Qed.

(** X8. When the site-information query fails, the run fails with the
    same exception right after it: no listing is requested and nothing
    has been written. *)
Theorem main_descriptor_failure (fuel : nat) (wiki_url api_url : string)
    (w w1 w2 : world) (ev1 ev2 : list event) (e : exn) :
  get_api_url wiki_url w = (Done (Some api_url), ev1, w1) ->
  api_url <> "" ->
  get_site_info api_url w1 = (Raised e, ev2, w2) ->
  main fuel wiki_url w = (Raised e, ev1 ++ ev2, w2) /\
  lines_of (ev1 ++ ev2) = [].
Proof.
  intros Hurl Hne Hinfo. split.
  - unfold main, bind. rewrite Hurl.
    destruct api_url as [| c api_url]; [congruence |].
    rewrite Hinfo. reflexivity.
  - pose proof (get_api_url_writes_nothing wiki_url w) as H1.
    pose proof (get_site_info_events api_url w1) as H2.
    rewrite Hurl in H1. rewrite Hinfo in H2. cbn in H1, H2. subst ev2.
    rewrite lines_of_app, H1. reflexivity.
Qed.

(** ** Sequencing *)

Lemma bind_ext {A B : Type} (m : M A) (f g : A -> M B) (w : world) :
  (forall a w', f a w' = g a w') -> bind m f w = bind m g w.
Proof.
  intros H. unfold bind. destruct (m w) as [[[a | e |] ev] w']; try reflexivity.
  rewrite H. reflexivity.
Qed.

Lemma bind_assoc {A B C : Type} (m : M A) (f : A -> M B) (g : B -> M C)
    (w : world) :
  bind (bind m f) g w = bind m (fun a => bind (f a) g) w.
Proof.
  unfold bind. destruct (m w) as [[[a | e |] ev] w1]; try reflexivity.
  destruct (f a w1) as [[[b | e |] ev1] w2]; try reflexivity.
  destruct (g b w2) as [[r ev2] w3]. rewrite app_assoc. reflexivity.
Qed.

Lemma bind_ret_l {A B : Type} (a : A) (f : A -> M B) (w : world) :
  bind (ret a) f w = f a w.
Proof. unfold bind, ret. destruct (f a w) as [[r ev] w']. reflexivity. Qed.

Lemma namespace_loop_app (fuel : nat) (api_url : string) (pre post : list json)
    (w : world) :
  namespace_loop fuel api_url (pre ++ post) w =
    bind (namespace_loop fuel api_url pre)
         (fun _ => namespace_loop fuel api_url post) w.
Proof.
  revert w. induction pre as [| ns pre IH]; intros w.
  - cbn [app namespace_loop]. rewrite bind_ret_l. reflexivity.
  - cbn [app namespace_loop]. rewrite bind_assoc.
    apply bind_ext. intros id w1. rewrite bind_assoc.
    apply bind_ext. intros [|] w2; [apply IH |].
    rewrite bind_assoc. apply bind_ext. intros pages w3.
    rewrite bind_assoc. apply bind_ext. intros _ w4. apply IH.
Qed.

(** X20. A namespace entry whose [id] is missing, or cannot be compared
    with 0, stops the namespace loop with that exception: the entries
    before it are walked and flushed as usual, those after it are never
    reached. *)
Theorem namespace_loop_bad_entry (fuel : nat) (api_url : string)
    (pre post : list json) (bad : json) (e : exn) (w : world) :
  pyres_bind (py_getitem bad "id") py_lt0 = Raise e ->
  namespace_loop fuel api_url (pre ++ bad :: post) w =
    bind (namespace_loop fuel api_url pre) (fun _ => lift (Raise e)) w.
Proof.
  intros Hbad. rewrite namespace_loop_app. apply bind_ext. intros _ w1.
  cbn [namespace_loop]. unfold bind, lift.
  destruct (py_getitem bad "id") as [id | e'].
  - cbn in Hbad. rewrite Hbad. reflexivity.
  - cbn in Hbad. injection Hbad as ->. reflexivity.
Qed.

(** X21. A namespace entry with a negative [id] is passed over: the
    namespace loop runs as if the entry were not in the table, whatever
    the other entries are. *)
Theorem namespace_loop_skips_negative (fuel : nat) (api_url : string)
    (pre post : list json) (ns : json) (z : Z) (w : world) :
  py_getitem ns "id" = Ret (JNum z) ->
  z < 0 ->
  namespace_loop fuel api_url (pre ++ ns :: post) w =
    namespace_loop fuel api_url (pre ++ post) w.
Proof.
  intros Hid Hneg. rewrite !namespace_loop_app. apply bind_ext. intros _ w1.
  cbn [namespace_loop]. unfold bind at 1. unfold lift at 1. rewrite Hid.
  unfold bind at 1. unfold lift at 1. cbn [py_lt0].
  replace (z <? 0) with true by (symmetry; apply Z.ltb_lt; exact Hneg).
  destruct (namespace_loop fuel api_url post w1) as [[r ev] w2]. reflexivity.
Qed.

(** ** The entries of a page *)

Lemma py_getitem_contains (v x : json) (k : string) :
  py_getitem v k = Ret x -> py_contains k v = Ret true.
Proof.
  destruct v as [| b | z | s | l | kvs]; try discriminate. cbn.
  destruct (obj_get k kvs); [reflexivity | discriminate].
Qed.

Lemma append_articles_acc (pages : list (string * json)) (acc : list string) :
  append_articles acc pages =
    pyres_bind (append_articles [] pages) (fun items => Ret (acc ++ items)).
Proof.
  revert acc. induction pages as [| [page_id page_info] pages IH]; intros acc.
  - cbn. rewrite app_nil_r. reflexivity.
  - cbn [append_articles]. destruct (article_item page_info) as [item |];
      cbn [pyres_bind]; [| reflexivity].
    rewrite (IH (acc ++ [item])), (IH ([] ++ [item])).
    destruct (append_articles [] pages) as [items |]; cbn; [| reflexivity].
    rewrite <- app_assoc. reflexivity.
Qed.

Lemma append_images_acc (images : list json) (acc : list string) :
  append_images acc images =
    pyres_bind (append_images [] images) (fun items => Ret (acc ++ items)).
Proof.
  revert acc. induction images as [| image images IH]; intros acc.
  - cbn. rewrite app_nil_r. reflexivity.
  - cbn [append_images]. destruct (media_item image) as [item |];
      cbn [pyres_bind]; [| reflexivity].
    rewrite (IH (acc ++ [item])), (IH ([] ++ [item])).
    destruct (append_images [] images) as [items |]; cbn; [| reflexivity].
    rewrite <- app_assoc. reflexivity.
Qed.

Lemma collect_pages_acc (data : json) (acc items : list string) :
  collect_pages data [] = Ret items -> collect_pages data acc = Ret (acc ++ items).
Proof.
  unfold collect_pages.
  destruct (py_contains "query" data) as [[|] |]; cbn; try discriminate.
  - destruct (py_getitem data "query") as [q |]; cbn; try discriminate.
    destruct (py_getitem q "pages") as [pages |]; cbn; try discriminate.
    destruct (py_items pages) as [kvs |]; cbn; try discriminate.
    intros H. rewrite append_articles_acc, H. reflexivity.
  - intros [= <-]. rewrite app_nil_r. reflexivity.
Qed.

Lemma collect_images_acc (data : json) (acc items : list string) :
  collect_images data [] = Ret items -> collect_images data acc = Ret (acc ++ items).
Proof.
  unfold collect_images.
  destruct (py_contains "query" data) as [[|] |]; cbn; try discriminate.
  - destruct (py_getitem data "query") as [q |]; cbn; try discriminate.
    destruct (py_getitem q "allimages") as [images |]; cbn; try discriminate.
    destruct (py_iter images) as [l |]; cbn; try discriminate.
    intros H. rewrite append_images_acc, H. reflexivity.
  - intros [= <-]. rewrite app_nil_r. reflexivity.
Qed.

Lemma append_articles_all (pages : list (string * json)) (urls : list json) :
  Forall2 (fun page u => py_getitem (snd page) "fullurl" = Ret u) pages urls ->
  append_articles [] pages =
    Ret (map (fun u => "mediawiki-article:" +:+ py_format u) urls).
Proof.
  induction 1 as [| [page_id page_info] u pages urls Hu _ IH]; [reflexivity |].
  cbn [append_articles]. unfold article_item. cbn in Hu. rewrite Hu.
  cbn [pyres_bind]. rewrite append_articles_acc, IH. reflexivity.
Qed.

Lemma append_images_all (images : list json) (urls : list json) :
  Forall2 (fun image u => py_getitem image "url" = Ret u) images urls ->
  append_images [] images =
    Ret (map (fun u => "mediawiki-media:" +:+ py_format u) urls).
Proof.
  induction 1 as [| image u images urls Hu _ IH]; [reflexivity |].
  cbn [append_images]. unfold media_item. rewrite Hu.
  cbn [pyres_bind]. rewrite append_images_acc, IH. reflexivity.
Qed.

(** X10. A page of the article listing whose entries all have a
    [fullurl] adds one item per entry to the items gathered so far, in
    the order of the entries, without removing duplicates. *)
Theorem collect_pages_in_order (data q : json) (pages : list (string * json))
    (urls : list json) (acc : list string) :
  py_getitem data "query" = Ret q ->
  py_getitem q "pages" = Ret (JObj pages) ->
  Forall2 (fun page u => py_getitem (snd page) "fullurl" = Ret u) pages urls ->
  collect_pages data acc =
    Ret (acc ++ map (fun u => "mediawiki-article:" +:+ py_format u) urls).
Proof.
  intros Hq Hpages Hurls. apply collect_pages_acc. unfold collect_pages.
  rewrite (py_getitem_contains _ _ _ Hq). cbn [pyres_bind].
  rewrite Hq. cbn [pyres_bind]. rewrite Hpages. cbn [pyres_bind py_items].
  apply append_articles_all, Hurls.
Qed.

(** X11. A page of the media listing whose entries all have a [url] adds
    one item per entry to the items gathered so far, in the order of the
    entries, without removing duplicates. *)
Theorem collect_images_in_order (data q : json) (images urls : list json)
    (acc : list string) :
  py_getitem data "query" = Ret q ->
  py_getitem q "allimages" = Ret (JArr images) ->
  Forall2 (fun image u => py_getitem image "url" = Ret u) images urls ->
  collect_images data acc =
    Ret (acc ++ map (fun u => "mediawiki-media:" +:+ py_format u) urls).
Proof.
  intros Hq Himages Hurls. apply collect_images_acc. unfold collect_images.
  rewrite (py_getitem_contains _ _ _ Hq). cbn [pyres_bind].
  rewrite Hq. cbn [pyres_bind]. rewrite Himages. cbn [pyres_bind py_iter].
  apply append_images_all, Hurls.
Qed.

Lemma append_articles_bad (pre post : list (string * json)) (page_id : string)
    (bad : json) (e : exn) (acc : list string) :
  Forall (fun page => exists u, py_getitem (snd page) "fullurl" = Ret u) pre ->
  py_getitem bad "fullurl" = Raise e ->
  append_articles acc (pre ++ (page_id, bad) :: post) = Raise e.
Proof.
  intros Hpre Hbad. revert acc.
  induction Hpre as [| [id page_info] pre [u Hu] _ IH]; intros acc.
  - cbn. unfold article_item. rewrite Hbad. reflexivity.
  - cbn [app append_articles]. unfold article_item at 1. cbn in Hu. rewrite Hu.
    cbn [pyres_bind]. apply IH.
Qed.

(** X12. If an entry of a page of the article listing has no [fullurl]
    (or is not an object), the walk fails on that page with the
    exception of the lookup, before the pause: the items of the earlier
    entries and pages are not returned and no further request is made. *)
Theorem walk_fails_on_entry_without_fullurl (fuel : nat) (api_url : string)
    (params : pydict) (acc : list string) (w w' : world) (r : response)
    (data q : json) (pre post : list (string * json)) (page_id : string)
    (bad : json) (e : exn) :
  requests_get api_url (Some params) w = (Ret r, w') ->
  resp_json r = Ret data ->
  py_getitem data "query" = Ret q ->
  py_getitem q "pages" = Ret (JObj (pre ++ (page_id, bad) :: post)) ->
  Forall (fun page => exists u, py_getitem (snd page) "fullurl" = Ret u) pre ->
  py_getitem bad "fullurl" = Raise e ->
  get_all_pages_loop (S fuel) api_url params acc w =
    (Raised e, [EvGet api_url (Some params)], w').
Proof.
  intros Hget Hdata Hq Hpages Hpre Hbad.
  assert (Hcollect : collect_pages data acc = Raise e).
  { unfold collect_pages. rewrite (py_getitem_contains _ _ _ Hq).
    cbn [pyres_bind]. rewrite Hq. cbn [pyres_bind]. rewrite Hpages.
    cbn [pyres_bind py_items]. apply append_articles_bad; assumption. }
  cbn [get_all_pages_loop].
  unfold bind at 1; unfold http_get at 1; rewrite Hget.
  unfold bind at 1; unfold lift at 1; rewrite Hdata.
  unfold bind at 1; unfold lift at 1; rewrite Hcollect. reflexivity.
Qed.

(** ** The rhythm of a walk *)

Ltac paced_walk IH :=
  unfold bind, http_get, lift, delay, emit;
  match goal with
  | |- context [ requests_get ?u ?p ?w ] =>
      destruct (requests_get u p w) as [[? | ?] ?]; cbn; [| apply paced_last]
  end;
  match goal with
  | |- context [ resp_json ?r ] =>
      destruct (resp_json r) as [? |]; cbn; [| apply paced_last]
  end;
  match goal with
  | |- context [ match ?c with Ret _ => _ | Raise _ => _ end ] =>
      destruct c as [? |]; cbn; [| apply paced_last]
  end;
  match goal with
  | |- context [ next_params ?d ?p ] =>
      destruct (next_params d p) as [[? |] |]; cbn;
        [| apply paced_step, paced_nil | apply paced_step, paced_nil]
  end;
  match goal with
  | |- context [ match ?loop ?fuel ?api ?params ?acc ?w with _ => _ end ] =>
      let Hrest := fresh "Hrest" in
      pose proof (IH params acc w) as Hrest;
      destruct (loop fuel api params acc w) as [[? ?] ?]; cbn in *;
      apply paced_step, Hrest
  end.

Lemma get_all_pages_loop_paced (fuel : nat) (api_url : string) (params : pydict)
    (acc : list string) (w : world) :
  paced api_url (events_of (get_all_pages_loop fuel api_url params acc w)).
Proof.
  revert params acc w. induction fuel as [| fuel IH]; intros params acc w.
  - apply paced_nil.
  - cbn [get_all_pages_loop]. paced_walk IH.
Qed.



(** ** One page of a walk *)

Lemma get_all_pages_loop_step (fuel : nat) (api_url : string) (params : pydict)
    (acc acc' : list string) (w w' : world) (r : response) (data : json)
    (next : option pydict) :
  requests_get api_url (Some params) w = (Ret r, w') ->
  resp_json r = Ret data ->
  collect_pages data acc = Ret acc' ->
  next_params data params = Ret next ->
  get_all_pages_loop (S fuel) api_url params acc w =
    match next with
    | Some params' =>
        prepend [EvGet api_url (Some params); EvSleep delaySeconds]
                (get_all_pages_loop fuel api_url params' acc' w')
    | None => (Done acc', [EvGet api_url (Some params); EvSleep delaySeconds], w')
    end.
Proof.
  intros Hget Hdata Hcollect Hnext. run_page Hget Hdata Hcollect.
  rewrite Hnext. destruct next as [params' |]; [| reflexivity].
  destruct (get_all_pages_loop fuel api_url params' acc' w') as [[res ev] w2].
  reflexivity.
Qed.

Lemma get_all_images_loop_step (fuel : nat) (api_url : string) (params : pydict)
    (acc acc' : list string) (w w' : world) (r : response) (data : json)
    (next : option pydict) :
  requests_get api_url (Some params) w = (Ret r, w') ->
  resp_json r = Ret data ->
  collect_images data acc = Ret acc' ->
  next_params data params = Ret next ->
  get_all_images_loop (S fuel) api_url params acc w =
    match next with
    | Some params' =>
        prepend [EvGet api_url (Some params); EvSleep delaySeconds]
                (get_all_images_loop fuel api_url params' acc' w')
    | None => (Done acc', [EvGet api_url (Some params); EvSleep delaySeconds], w')
    end.
Proof.
  intros Hget Hdata Hcollect Hnext. run_page Hget Hdata Hcollect.
  rewrite Hnext. destruct next as [params' |]; [| reflexivity].
  destruct (get_all_images_loop fuel api_url params' acc' w') as [[res ev] w2].
  reflexivity.
Qed.

(** ** Merging a continuation object *)

Lemma obj_get_None_existsb (k : string) (kvs : list (string * json)) :
  obj_get k kvs = None -> existsb (fun kv => String.eqb k (fst kv)) kvs = false.
Proof.
  induction kvs as [| [k0 v0] kvs IH]; cbn; [reflexivity |].
  destruct (String.eqb k k0); [discriminate | exact IH].
Qed.

Lemma obj_get_not_in (k : string) (kvs : list (string * json)) :
  k ∉ map fst kvs -> obj_get k kvs = None.
Proof.
  induction kvs as [| [k0 v0] kvs IH]; cbn; [reflexivity |].
  intros Hnot. apply not_elem_of_cons in Hnot as [Hne Hnot].
  destruct (String.eqb_spec k k0) as [-> | _]; [congruence | apply IH, Hnot].
Qed.

Lemma update_from_obj_get (k : string) (v : json) (kvs : list (string * json))
    (d : pydict) :
  NoDup (map fst kvs) ->
  obj_get k kvs = Some v ->
  dict_get (KStr k) (update_from_obj d kvs) = Some v.
Proof.
  unfold update_from_obj. revert d.
  induction kvs as [| [k0 v0] kvs IH]; intros d Hnodup Hget; [discriminate |].
  cbn in Hnodup, Hget |- *. apply NoDup_cons in Hnodup as [Hfresh Hnodup].
  destruct (String.eqb_spec k k0) as [-> | Hne].
  - injection Hget as ->.
    pose proof (update_from_obj_other k0 kvs (dict_set (KStr k0) v d)
                  (obj_get_None_existsb _ _ (obj_get_not_in _ _ Hfresh))) as H.
    unfold update_from_obj in H. rewrite H.
    apply dict_get_set_same, pykey_eqb_refl.
  - apply IH; assumption.
Qed.

(** X15. When a response carries a modern [continue] object, whether or
    not it also carries a legacy one, the parameters of the next request
    are those of the last request with every member of that object
    written over them: each key of the object has the object's value,
    every other parameter is unchanged. *)
Theorem modern_continuation_merge (data : json) (params : pydict)
    (ckvs : list (string * json)) :
  py_getitem data "continue" = Ret (JObj ckvs) ->
  NoDup (map fst ckvs) ->
  exists params',
    next_params data params = Ret (Some params') /\
    (forall k v, obj_get k ckvs = Some v -> dict_get (KStr k) params' = Some v) /\
    (forall k, obj_get k ckvs = None ->
               dict_get (KStr k) params' = dict_get (KStr k) params).
Proof.
  intros Hcont Hnodup. exists (update_from_obj params ckvs). split; [| split].
  - unfold next_params, continuation_object.
    rewrite (py_getitem_contains _ _ _ Hcont). cbn [pyres_bind].
    rewrite Hcont. reflexivity.
  - intros k v Hk. apply update_from_obj_get; assumption.
  - intros k Hk. apply update_from_obj_other, obj_get_None_existsb, Hk.
Qed.


(** ** The placeholder of the article path *)

Lemma str_contains_char (x c : ascii) (s : string) :
  str_contains (String x "") (String c s) =
    Ascii.eqb c x || str_contains (String x "") s.
Proof.
  rewrite str_contains_unfold, prefix_cons.
  destruct (ascii_dec x c) as [<- | Hne].
  - rewrite prefix_empty, Ascii.eqb_refl. reflexivity.
  - destruct (Ascii.eqb_spec c x) as [-> | _]; [congruence | reflexivity].
Qed.

Lemma replace_dollar1_unfold (c d : ascii) (s new : string) :
  replace_dollar1 (String c (String d s)) new =
    if Ascii.eqb c "$"%char && Ascii.eqb d "1"%char
    then new +:+ replace_dollar1 s new
    else String c (replace_dollar1 (String d s) new).
Proof. reflexivity. Qed.

Lemma replace_dollar1_cons (c : ascii) (s new : string) :
  Ascii.eqb c "$"%char = false ->
  replace_dollar1 (String c s) new = String c (replace_dollar1 s new).
Proof.
  intros Hc. destruct s as [| d s]; [reflexivity |].
  rewrite replace_dollar1_unfold, Hc. reflexivity.
Qed.

Lemma replace_dollar1_id (t new : string) :
  str_contains "$1" t = false -> replace_dollar1 t new = t.
Proof.
  induction t as [| c t IH]; [reflexivity |].
  rewrite str_contains_unfold. intros H.
  apply orb_false_iff in H as [Hprefix Hrest].
  destruct t as [| d t]; [reflexivity |].
  rewrite replace_dollar1_unfold, (IH Hrest).
  destruct (Ascii.eqb_spec c "$"%char) as [-> | _]; [| reflexivity].
  destruct (Ascii.eqb_spec d "1"%char) as [-> | _]; [| reflexivity].
  rewrite !prefix_cons in Hprefix.
  destruct (ascii_dec "$"%char "$"%char); [| congruence].
  destruct (ascii_dec "1"%char "1"%char); [| congruence].
  rewrite prefix_empty in Hprefix. discriminate.
Qed.

(** X19. [template.replace('$1', new)]: a template without [$1] is left
    as it is; in a template that has no [$] before its first [$1], that
    [$1] becomes [new] and the replacement goes on in the rest. *)
Theorem replace_dollar1_substitutes (a b new : string) :
  (str_contains "$1" a = false -> replace_dollar1 a new = a) /\
  (str_contains "$" a = false ->
   replace_dollar1 (a +:+ "$1" +:+ b) new = a +:+ new +:+ replace_dollar1 b new).
Proof.
  split; [apply replace_dollar1_id |].
  induction a as [| c a IH]; intros H; [reflexivity |].
  rewrite str_contains_char in H. apply orb_false_iff in H as [Hc Ha].
  change (String c a +:+ "$1" +:+ b) with (String c (a +:+ "$1" +:+ b)).
  rewrite (replace_dollar1_cons c _ new Hc), (IH Ha). reflexivity.
Qed.

(** ** The names of the special pages *)

Lemma existsb_pykey_str (a : string) (l : list string) :
  existsb (pykey_eqb (KStr a)) (map KStr l) = true <-> a ∈ l.
Proof.
  induction l as [| b l IH]; cbn.
  - split; [discriminate | intros H; inversion H].
  - rewrite orb_true_iff, IH, elem_of_cons. unfold pykey_eqb.
    rewrite bool_decide_eq_true. cbn.
    split; (intros [H | H]; [left; congruence | right; exact H]).
Qed.

Lemma pyset_add_str (a : string) (l : list string) :
  pyset_add (KStr a) (map KStr l) = map KStr (add_name a l).
Proof.
  unfold pyset_add, add_name.
  destruct (existsb (pykey_eqb (KStr a)) (map KStr l)) eqn:Hex.
  - apply existsb_pykey_str in Hex. rewrite bool_decide_eq_true_2 by exact Hex.
    reflexivity.
  - rewrite bool_decide_eq_false_2.
    + rewrite map_app. reflexivity.
    + intros Hin. apply existsb_pykey_str in Hin. congruence.
Qed.

Lemma pyset_update_str (aliases l : list string) :
  pyset_update (map KStr l) (map JStr aliases) = Ret (map KStr (add_names l aliases)).
Proof.
  revert l. induction aliases as [| a aliases IH]; intros l; [reflexivity |].
  cbn [map pyset_update py_hash pyres_bind]. rewrite pyset_add_str. apply IH.
Qed.

Lemma add_entry_str (entry : json) (names l : list string) :
  entry_names entry names ->
  add_entry (map KStr l) entry = Ret (map KStr (add_names l names)).
Proof.
  intros (kvs & realname & aliases & -> & Hreal & Haliases & ->).
  unfold add_entry, get_aliases. cbn [py_getitem]. rewrite Hreal.
  cbn [pyres_bind py_hash]. rewrite pyset_add_str.
  destruct Haliases as [[-> ->] | ->]; cbn [pyres_bind py_iter].
  - reflexivity.
  - exact (pyset_update_str aliases (add_name realname l)).
Qed.

Lemma collect_special_pages_str (entries : list json) (namess : list (list string))
    (l : list string) :
  Forall2 entry_names entries namess ->
  collect_special_pages (map KStr l) entries =
    Ret (map KStr (add_names l (List.concat namess))).
Proof.
  intros H. revert l.
  induction H as [| entry names entries namess Hentry _ IH]; intros l;
    [reflexivity |].
  cbn [collect_special_pages List.concat]. rewrite (add_entry_str _ _ _ Hentry).
  cbn [pyres_bind]. rewrite IH. unfold add_names. rewrite fold_left_app.
  reflexivity.
Qed.

Lemma elem_of_add_name (x a : string) (l : list string) :
  x ∈ add_name a l <-> x = a \/ x ∈ l.
Proof.
  unfold add_name. case_bool_decide as Hin.
  - split; [auto | intros [-> | H]; assumption].
  - rewrite elem_of_app, list_elem_of_singleton.
    split; intros [H | H]; auto.
Qed.

Lemma elem_of_add_names (x : string) (names l : list string) :
  x ∈ add_names l names <-> x ∈ l \/ x ∈ names.
Proof.
  revert l. induction names as [| a names IH]; intros l; cbn.
  - split; [auto | intros [H | H]; [exact H | inversion H]].
  - unfold add_names in IH. rewrite IH, elem_of_add_name, elem_of_cons.
    split; [intros [[H | H] | H] | intros [H | [H | H]]]; auto.
Qed.

Lemma special_items_str (template : string) (l : list string) (acc : gset string) :
  exists items,
    special_items (JStr template) acc (map KStr l) = Ret items /\
    forall x, x ∈ items <->
              x ∈ acc \/ exists name, name ∈ l /\ x = special_url template name.
Proof.
  revert acc. induction l as [| a l IH]; intros acc.
  - exists acc. split; [reflexivity |]. intros x. split; [auto |].
    intros [H | (name & H & _)]; [exact H | inversion H].
  - destruct (IH ({[ special_url template a ]} ∪ acc)) as (items & Hitems & Hin).
    exists items. split; [exact Hitems |]. intros x.
    rewrite Hin, elem_of_union, elem_of_singleton. split.
    + intros [[-> | H] | (name & Hname & ->)]; [right | left | right].
      * exists a. split; [apply elem_of_cons; auto | reflexivity].
      * exact H.
      * exists name. split; [apply elem_of_cons; auto | reflexivity].
    + intros [H | (name & Hname & ->)]; [left; right; exact H |].
      apply elem_of_cons in Hname as [-> | Hname]; [left; left; reflexivity |].
      right. exists name. split; [exact Hname | reflexivity].
Qed.

Lemma special_pages_of_names (data q : json) (entries : list json)
    (namess : list (list string)) (template : string) :
  py_getitem data "query" = Ret q ->
  py_getitem q "specialpagealiases" = Ret (JArr entries) ->
  Forall2 entry_names entries namess ->
  exists items,
    special_pages_of data (JStr template) = Ret items /\
    forall x, x ∈ items <->
              exists name, name ∈ List.concat namess /\ x = special_url template name.
Proof.
  intros Hq Hentries Hnames.
  destruct (special_items_str template (add_names [] (List.concat namess)) ∅)
    as (items & Hitems & Hin).
  exists items. split.
  - unfold special_pages_of. rewrite Hq. cbn [pyres_bind]. rewrite Hentries.
    cbn [pyres_bind py_iter].
    pose proof (collect_special_pages_str entries namess [] Hnames) as Hnamed.
    cbn [map] in Hnamed. rewrite Hnamed. cbn [pyres_bind]. exact Hitems.
  - intros x. rewrite Hin. split.
    + intros [H | (name & Hname & ->)]; [apply elem_of_empty in H as [] |].
      exists name. split; [| reflexivity].
      apply elem_of_add_names in Hname as [H | H]; [inversion H | exact H].
    + intros (name & Hname & ->). right. exists name. split; [| reflexivity].
      apply elem_of_add_names. right. exact Hname.
Qed.

Lemma get_special_pages_run (api_url : string) (template_url : json)
    (w w' : world) (r : response) (data : json) (items : gset string) :
  requests_get api_url (Some special_pages_params) w = (Ret r, w') ->
  resp_json r = Ret data ->
  special_pages_of data template_url = Ret items ->
  get_special_pages api_url template_url w =
    (Done items, [EvSleep delaySeconds; EvGet api_url (Some special_pages_params)], w').
Proof.
  intros Hget Hdata Hitems.
  unfold get_special_pages, rate_limited, delay, emit, bind, http_get, lift.
  rewrite Hget, Hdata, Hitems. reflexivity.
Qed.

(** X17. When every alias entry has a string [realname] and, if it has
    an [aliases] field, a list of strings there, the special-page
    enumeration returns exactly one item for each name that occurs as a
    realname or as an alias, whatever the number of its occurrences:
    [mediawiki-special:] followed by the template with [Special:<name>]
    in place of [$1]. *)
Theorem special_pages_are_the_names (api_url template : string) (w w' : world)
    (r : response) (data q : json) (entries : list json)
    (namess : list (list string)) :
  requests_get api_url (Some special_pages_params) w = (Ret r, w') ->
  resp_json r = Ret data ->
  py_getitem data "query" = Ret q ->
  py_getitem q "specialpagealiases" = Ret (JArr entries) ->
  Forall2 entry_names entries namess ->
  exists items,
    get_special_pages api_url (JStr template) w =
      (Done items,
       [EvSleep delaySeconds; EvGet api_url (Some special_pages_params)], w') /\
    forall x, x ∈ items <->
              exists name,
                name ∈ List.concat namess /\
                x = "mediawiki-special:" +:+
                    replace_dollar1 template ("Special:" +:+ name).
Proof.
  intros Hget Hdata Hq Hentries Hnames.
  destruct (special_pages_of_names data q entries namess template Hq Hentries Hnames)
    as (items & Hitems & Hin).
  exists items. split; [| exact Hin].
  apply (get_special_pages_run _ _ _ _ _ _ _ Hget Hdata Hitems).
Qed.

(** X18. When the article-path template holds no [$1], all the special
    pages map to the same item, the template itself: the enumeration of
    a non-empty list of alias entries returns that one item. *)
Theorem special_pages_without_placeholder (api_url template : string)
    (w w' : world) (r : response) (data q : json) (entries : list json)
    (namess : list (list string)) :
  requests_get api_url (Some special_pages_params) w = (Ret r, w') ->
  resp_json r = Ret data ->
  py_getitem data "query" = Ret q ->
  py_getitem q "specialpagealiases" = Ret (JArr entries) ->
  Forall2 entry_names entries namess ->
  entries <> [] ->
  str_contains "$1" template = false ->
  get_special_pages api_url (JStr template) w =
    (Done {[ "mediawiki-special:" +:+ template ]},
     [EvSleep delaySeconds; EvGet api_url (Some special_pages_params)], w').
Proof.
  intros Hget Hdata Hq Hentries Hnames Hne Hplain.
  destruct (special_pages_of_names data q entries namess template Hq Hentries Hnames)
    as (items & Hitems & Hin).
  rewrite (get_special_pages_run _ _ _ _ _ _ _ Hget Hdata Hitems).
  replace items with ({[ "mediawiki-special:" +:+ template ]} : gset string);
    [reflexivity |].
  apply set_eq. intros x. rewrite Hin, elem_of_singleton.
  unfold special_url. split.
  - intros ->. destruct Hnames as [| entry names entries namess Hentry _];
      [congruence |].
    destruct Hentry as (kvs & realname & aliases & _ & _ & _ & ->).
    exists realname. split; [cbn; apply elem_of_cons; auto |].
    rewrite replace_dollar1_id by exact Hplain. reflexivity.
  - intros (name & _ & ->). rewrite replace_dollar1_id by exact Hplain.
    reflexivity.
Qed.

(** ** Namespace enumeration *)

Lemma walk_starts_after_paced (api_url : string) (evs tail : list event) :
  paced api_url evs -> walk_starts false (evs ++ tail) = walk_starts false tail.
Proof. induction 1 as [| params | params seconds rest _ IH]; cbn; auto. Qed.

Lemma walk_starts_paced (api_url url : string) (params : pydict)
    (evs tail : list event) :
  paced api_url (EvGet url (Some params) :: evs) ->
  walk_starts true ((EvGet url (Some params) :: evs) ++ tail) =
    params :: walk_starts false tail.
Proof.
  intros Hpaced. cbn. f_equal.
  inversion Hpaced as [| p | p seconds rest Hrest]; subst; cbn;
    [reflexivity |].
  exact (walk_starts_after_paced _ _ _ Hrest).
Qed.

Lemma get_all_pages_loop_first_event (fuel : nat) (api_url : string)
    (params : pydict) (acc : list string) (w : world) :
  exists evs,
    events_of (get_all_pages_loop (S fuel) api_url params acc w) =
      EvGet api_url (Some params) :: evs.
Proof.
  cbn [get_all_pages_loop]. unfold bind at 1. unfold http_get at 1.
  destruct (requests_get api_url (Some params) w) as [[r | e] w'];
    [| eexists; reflexivity].
  match goal with
  | |- context [ match ?m w' with _ => _ end ] =>
      destruct (m w') as [[res ev] w2]
  end.
  eexists. reflexivity.
Qed.

Lemma namespace_loop_walk_starts (fuel : nat) (api_url : string)
    (nss : list json) (ids : list Z) :
  Forall2 (fun ns z => py_getitem ns "id" = Ret (JNum z)) nss ids ->
  forall w res evs w',
    namespace_loop fuel api_url nss w = (res, evs, w') ->
    let expected := map (fun z => all_pages_params (JNum z))
                        (List.filter (fun z => 0 <=? z) ids) in
    (exists more, expected = walk_starts true evs ++ more) /\
    (res = Done tt -> walk_starts true evs = expected).
Proof.
  induction 1 as [| ns z nss ids Hid _ IH]; intros w res evs w' Hrun; cbn zeta.
  - injection Hrun as <- <- _. split; [exists []; reflexivity | reflexivity].
  - cbn [namespace_loop List.filter] in Hrun |- *.
    unfold bind at 1 in Hrun. unfold lift at 1 in Hrun. rewrite Hid in Hrun.
    unfold bind at 1 in Hrun. unfold lift at 1 in Hrun. cbn [py_lt0] in Hrun.
    destruct (Z.ltb_spec z 0) as [Hneg | Hpos].
    + replace (0 <=? z) with false by (symmetry; apply Z.leb_gt; exact Hneg).
      destruct (namespace_loop fuel api_url nss w) as [[res0 ev0] w0] eqn:Hrest.
      cbn in Hrun. injection Hrun as <- <- _.
      exact (IH w res0 ev0 w0 Hrest).
    + replace (0 <=? z) with true by (symmetry; apply Z.leb_le; exact Hpos).
      cbn [map]. unfold bind in Hrun.
      pose proof (get_all_pages_loop_paced fuel api_url
                    (all_pages_params (JNum z)) [] w) as Hpaced.
      assert (Hshape :
                get_all_pages fuel api_url (JNum z) w = (OutOfFuel, [], w) \/
                exists tl,
                  events_of (get_all_pages fuel api_url (JNum z) w) =
                    EvGet api_url (Some (all_pages_params (JNum z))) :: tl).
      { destruct fuel as [| fuel]; [left; reflexivity |].
        right. apply get_all_pages_loop_first_event. }
      unfold get_all_pages in *.
      destruct (get_all_pages_loop fuel api_url (all_pages_params (JNum z)) [] w)
        as [[[pages | e |] ev] w1]; cbn in Hpaced, Hshape, Hrun.
      * destruct Hshape as [Hout | [tl ->]]; [discriminate Hout |].
        destruct (namespace_loop fuel api_url nss w1) as [[res0 ev0] w0] eqn:Hrest.
        cbn in Hrun. injection Hrun as <- <- _.
        destruct (IH w1 res0 ev0 w0 Hrest) as [[more Hmore] Hdone].
        change (EvGet api_url (Some (all_pages_params (JNum z)))
                  :: tl ++ EvAppend "items.txt"
                             (map (fun item => item +:+ newline) pages) :: ev0)
          with ((EvGet api_url (Some (all_pages_params (JNum z))) :: tl)
                  ++ EvAppend "items.txt"
                       (map (fun item => item +:+ newline) pages) :: ev0).
        rewrite (walk_starts_paced api_url _ _ _ _ Hpaced). cbn [walk_starts].
        split.
        -- exists more. cbn. rewrite Hmore. reflexivity.
        -- intros Hres. rewrite (Hdone Hres). reflexivity.
      * injection Hrun as <- <- _. split; [| discriminate].
        destruct Hshape as [Hout | [tl ->]]; [discriminate Hout |].
        pose proof (walk_starts_paced api_url _ _ _ [] Hpaced) as Hstart.
        rewrite app_nil_r in Hstart. rewrite Hstart. eexists. reflexivity.
      * injection Hrun as <- <- _. split; [| discriminate].
        destruct Hshape as [[= -> _] | [tl ->]].
        -- eexists. reflexivity.
        -- pose proof (walk_starts_paced api_url _ _ _ [] Hpaced) as Hstart.
           rewrite app_nil_r in Hstart. rewrite Hstart. eexists. reflexivity.
Qed.

Lemma namespace_loop_walk_each (fuel : nat) (api_url : string)
    (nss : list json) (ids : list Z) :
  Forall2 (fun ns z => py_getitem ns "id" = Ret (JNum z)) nss ids ->
  forall w,
    namespace_loop fuel api_url nss w =
      walk_each fuel api_url (List.filter (fun z => 0 <=? z) ids) w.
Proof.
  induction 1 as [| ns z nss ids Hid _ IH]; intros w; [reflexivity |].
  cbn [namespace_loop List.filter walk_each].
  unfold bind at 1. unfold lift at 1. rewrite Hid.
  unfold bind at 1. unfold lift at 1. cbn [py_lt0].
  destruct (Z.ltb_spec z 0) as [Hneg | Hpos].
  - replace (0 <=? z) with false by (symmetry; apply Z.leb_gt; exact Hneg).
    cbn. rewrite IH.
    destruct (walk_each fuel api_url (List.filter (fun z => 0 <=? z) ids) w)
      as [[res ev] w']. reflexivity.
  - replace (0 <=? z) with true by (symmetry; apply Z.leb_le; exact Hpos).
    cbn [walk_each]. unfold bind.
    destruct (get_all_pages fuel api_url (JNum z) w) as [[[pages | e |] ev] w1];
      cbn; try reflexivity.
    rewrite IH.
    destruct (walk_each fuel api_url (List.filter (fun z => 0 <=? z) ids) w1)
      as [[res ev'] w2]. reflexivity.
Qed.

(** C6, as amended. The namespace loop goes through the values of the
    namespace table in table order. The walks it runs, read off its
    trace, are walks of namespaces with a non-negative ID, each started
    with the fresh parameter set of that namespace, in table order and
    without gap: they are the first of the non-negative IDs of the table,
    up to the walk at which the loop stops if it does not end normally.
    When the loop ends normally, the walks are exactly those of all the
    non-negative IDs, in table order; no namespace with a negative ID is
    ever walked. Each walk that returns is flushed to the sink before the
    next one starts. *)
Theorem namespace_enumeration (fuel : nat) (api_url : string)
    (table : list (string * json)) (ids : list Z) (w : world) :
  Forall2 (fun ns z => py_getitem ns "id" = Ret (JNum z)) (map snd table) ids ->
  let run := namespace_loop fuel api_url (map snd table) w in
  let expected := map (fun z => all_pages_params (JNum z))
                      (List.filter (fun z => 0 <=? z) ids) in
  py_values (JObj table) = Ret (map snd table) /\
  (exists more, expected = walk_starts true (events_of run) ++ more) /\
  (result_of run = Done tt -> walk_starts true (events_of run) = expected) /\
  run = walk_each fuel api_url (List.filter (fun z => 0 <=? z) ids) w.
Proof.
  intros Hids. cbn zeta. split; [reflexivity |].
  destruct (namespace_loop fuel api_url (map snd table) w) as [[res evs] w'] eqn:Hrun.
  destruct (namespace_loop_walk_starts fuel api_url _ _ Hids w res evs w' Hrun)
    as [Hprefix Hdone].
  split; [exact Hprefix |]. split; [exact Hdone |].
  rewrite <- Hrun. apply namespace_loop_walk_each, Hids.
Qed.

End Discovery.

Arguments result_of {world A} r.
Arguments events_of {world A} r.
Arguments world_of {world A} r.
Arguments prepend {world A} evs r.

(** ** Worked examples *)

Abbreviation run_pages :=
  (get_all_pages (list response) Mock.scripted_get Mock.py_repr).
Abbreviation run_images :=
  (get_all_images (list response) Mock.scripted_get Mock.py_repr).
Abbreviation run_special_pages :=
  (get_special_pages (list response) Mock.scripted_get Mock.py_repr).
Abbreviation run_script :=
  (script (list response) Mock.scripted_get Mock.urljoin Mock.urlparse
          Mock.py_repr).
Abbreviation run_main :=
  (main (list response) Mock.scripted_get Mock.urljoin Mock.urlparse
        Mock.py_repr).
Abbreviation run_get_api_url :=
  (get_api_url (list response) Mock.scripted_get Mock.urlparse).

(** C1 as first stated fails: the article entry of the example does not
    map to an item of kind [article]: the kind written by the script is [mediawiki-article]. *)
Lemma article_entry_kind_is_not_article :
  article_item Mock.py_repr Mock.article_entry
  <> Ret "article:https://wiki.example/wiki/Main_Page".
Proof. vm_compute. discriminate. Qed.

(** The items of the example wiki. *)
Lemma discovered_items_form_witness :
  py_getitem Mock.article_entry "fullurl"
    = Ret (JStr "https://wiki.example/wiki/Main_Page") /\
  py_getitem Mock.media_entry "url"
    = Ret (JStr "https://wiki.example/images/Logo.png") /\
  (Forall item_line (lines_of (events_of (run_main 5 Mock.api Mock.wiki_script))) /\
   article_item Mock.py_repr Mock.article_entry
     = Ret "mediawiki-article:https://wiki.example/wiki/Main_Page" /\
   media_item Mock.py_repr Mock.media_entry
     = Ret "mediawiki-media:https://wiki.example/images/Logo.png" /\
   special_item Mock.py_repr (JStr "/wiki/$1") (KStr "Export")
     = Ret "mediawiki-special:/wiki/Special:Export").
Proof.
  split; [reflexivity |]. split; [reflexivity |].
  apply (discovered_items_form (list response) Mock.scripted_get
           Mock.urljoin Mock.urlparse Mock.py_repr
           5 Mock.api Mock.wiki_script
           Mock.article_entry Mock.media_entry
           "https://wiki.example/wiki/Main_Page"
           "https://wiki.example/images/Logo.png" "/wiki/$1" "Export");
    reflexivity.
Defined.

(** C2: what the walkers do with a legacy continuation object. When the
    legacy object holds the continuation under the name of the listing
    being walked ([allpages], [allimages]), the walker looks for a
    [categories] member instead: the walk stops on a [KeyError] after its
    first request and merges nothing. *)
Theorem legacy_continuation_reads_categories :
  run_pages 5 Mock.api (JNum 0) Mock.legacy_pages_script =
    (Raised (KeyError "categories"),
     [EvGet Mock.api (Some (all_pages_params (JNum 0))); EvSleep 0],
     [Mock.json_reply Mock.pages_data]) /\
  run_images 5 Mock.api Mock.legacy_images_script =
    (Raised (KeyError "categories"),
     [EvGet Mock.api (Some all_images_params); EvSleep 0],
     [Mock.json_reply Mock.images_data]).
Proof. split; vm_compute; reflexivity. Qed.

(** Whatever the listing, a response without [continue] and with a
    [query-continue] object is continued from the [categories] member of
    that object. *)
Lemma legacy_continuation_object (kvs : list (string * json)) (qc : json) :
  obj_get "continue" kvs = None ->
  obj_get "query-continue" kvs = Some qc ->
  continuation_object (JObj kvs) =
    pyres_bind (py_getitem qc "categories") (fun c => Ret (Some c)).
Proof.
  intros Hmodern Hlegacy. unfold continuation_object. cbn.
  rewrite Hmodern. cbn. rewrite Hlegacy. reflexivity.
Qed.

(** The namespaces walked for the table [{0: Main, -1: Special, 2: Talk}],
    read off the requests. *)
Example namespace_walks_run :
  map (dict_get (KStr "gapnamespace"))
      (requests_of (events_of
         (namespace_loop (list response) Mock.scripted_get Mock.py_repr
            5 Mock.api (map snd Mock.namespace_table)
            [Mock.json_reply Mock.pages_data; Mock.json_reply Mock.pages_data])))
  = [Some (JNum 0); Some (JNum 2)].
Proof. vm_compute. reflexivity. Qed.

(** A run with [--delay 5] against the example wiki: five pauses, of 0
    seconds each. *)
Example delay_flag_run :
  let run := run_script 5 (CliArgs Mock.api (Some "5")) Mock.wiki_script in
  result_of run = Done tt /\ sleeps_of (events_of run) = [0; 0; 0; 0; 0].
Proof. split; vm_compute; reflexivity. Qed.

(** C4 as first stated fails: a page whose [query] object lacks the
    [pages] member, although it carries a continuation, ends the walk with a [KeyError]: no second
    request is made. *)
Lemma malformed_page_aborts_walk :
  run_pages 5 Mock.api (JNum 0) Mock.malformed_script =
    (Raised (KeyError "pages"),
     [EvGet Mock.api (Some (all_pages_params (JNum 0)))],
     [Mock.json_reply Mock.pages_data]).
Proof. vm_compute. reflexivity. Qed.

(** A first page without [query] and with a modern continuation object:
    the walk goes on with the merged parameters. *)
Lemma walk_tolerates_missing_query_witness :
  let w := [Mock.json_reply Mock.no_query_data;
            Mock.json_reply Mock.pages_data] in
  let params := all_pages_params (JNum 0) in
  let params' := params ++ [(KStr "gapcontinue", JStr "B")] in
  py_contains "query" Mock.no_query_data = Ret false /\
  py_getitem Mock.no_query_data "continue"
    = Ret (JObj [("gapcontinue", JStr "B"); ("continue", JStr "gapcontinue||")]) /\
  get_all_pages_loop (list response) Mock.scripted_get Mock.py_repr
      2 Mock.api params [] w =
    prepend [EvGet Mock.api (Some params); EvSleep delaySeconds]
      (get_all_pages_loop (list response) Mock.scripted_get Mock.py_repr
         1 Mock.api
         (dict_set (KStr "continue") (JStr "gapcontinue||") params') []
         [Mock.json_reply Mock.pages_data]).
Proof.
  intros w params params'. split; [reflexivity |]. split; [reflexivity |].
  destruct (walk_tolerates_missing_query (list response) Mock.scripted_get
              Mock.py_repr 1 Mock.api params [] w
              [Mock.json_reply Mock.pages_data]
              (Mock.json_reply Mock.no_query_data) Mock.no_query_data
              eq_refl eq_refl eq_refl)
    as (_ & _ & Hcontinue & _).
  apply (Hcontinue (JObj [("gapcontinue", JStr "B");
                          ("continue", JStr "gapcontinue||")]));
    reflexivity.
Defined.




(** C6 as first stated fails: when the walk of namespace 0 fails (here
    the server cannot be reached), the enumeration ends with that
    exception and namespace 2, whose ID is not negative, is not walked. *)
Lemma failed_walk_ends_enumeration :
  let run := namespace_loop (list response) Mock.scripted_get Mock.py_repr
               5 Mock.api (map snd Mock.namespace_table) [] in
  map (fun ns => py_getitem ns "id") (map snd Mock.namespace_table) =
    [Ret (JNum 0); Ret (JNum (-1)); Ret (JNum 2)] /\
  run = (Raised RequestException,
         [EvGet Mock.api (Some (all_pages_params (JNum 0)))], []) /\
  walk_starts true (events_of run) <>
    [all_pages_params (JNum 0); all_pages_params (JNum 2)].
Proof.
  intros run. split; [reflexivity |]. split; [reflexivity |].
  intros Hwalks. vm_compute in Hwalks. discriminate Hwalks.
Qed.

(** The table [{0: Main, -1: Special, 2: Talk}] against a server with one
    page of articles for each walk: the loop ends normally, after a walk
    for 0 and then one for 2. *)
Lemma namespace_enumeration_witness :
  let w := [Mock.json_reply Mock.pages_data; Mock.json_reply Mock.pages_data] in
  let run := namespace_loop (list response) Mock.scripted_get Mock.py_repr
               5 Mock.api (map snd Mock.namespace_table) w in
  Forall2 (fun ns z => py_getitem ns "id" = Ret (JNum z))
          (map snd Mock.namespace_table) [0; -1; 2] /\
  result_of run = Done tt /\
  walk_starts true (events_of run) =
    [all_pages_params (JNum 0); all_pages_params (JNum 2)].
Proof.
  intros w run.
  assert (Hids : Forall2 (fun ns z => py_getitem ns "id" = Ret (JNum z))
                         (map snd Mock.namespace_table) [0; -1; 2])
    by (repeat constructor).
  assert (Hdone : result_of run = Done tt) by reflexivity.
  split; [exact Hids |]. split; [exact Hdone |].
  destruct (namespace_enumeration (list response) Mock.scripted_get
              Mock.py_repr 5 Mock.api Mock.namespace_table [0; -1; 2] w Hids)
    as (_ & _ & Hwalks & _).
  exact (Hwalks Hdone).
Defined.

(** C7 as first stated fails: for the alias entry of the example the
    enumeration does not return the items of kind [special]. *)
Lemma special_pages_kind_is_not_special :
  result_of (run_special_pages Mock.api (JStr "/wiki/$1")
               [Mock.json_reply (Mock.aliases_data [Mock.export_entry])])
  <> Done {[ "special:/wiki/Special:Export"; "special:/wiki/Special:ExportPages" ]}.
Proof.
  unfold get_special_pages, rate_limited, delay, emit, bind, http_get, lift.
  cbn [Mock.scripted_get Mock.json_reply resp_json].
  pose proof (special_pages_of_export Mock.py_repr 0) as Hvalue.
  cbn [repeat] in Hvalue. rewrite Hvalue. cbn [result_of fst].
  intros H.
  apply (f_equal (fun o => match o with
                           | Done items => bool_decide
                               ("special:/wiki/Special:Export" ∈ items)
                           | _ => false
                           end)) in H.
  rewrite bool_decide_eq_false_2, bool_decide_eq_true_2 in H.
  - discriminate H.
  - apply elem_of_union. left. apply elem_of_singleton. reflexivity.
  - rewrite !elem_of_union, !elem_of_singleton, elem_of_empty.
    intros [Hin | [Hin | []]]; discriminate Hin.
Qed.

(** The alias entry of the example, twice. *)
Lemma special_pages_export_witness :
  let w := [Mock.json_reply
              (Mock.aliases_data [Mock.export_entry; Mock.export_entry])] in
  Mock.scripted_get Mock.api (Some special_pages_params) w
    = (Ret (Mock.json_reply
              (Mock.aliases_data [Mock.export_entry; Mock.export_entry])),
       []) /\
  exists specials,
    result_of (run_special_pages Mock.api (JStr "/wiki/$1") w) = Done specials /\
    elements specials ≡ₚ [ "mediawiki-special:/wiki/Special:Export";
                           "mediawiki-special:/wiki/Special:ExportPages" ].
Proof.
  intros w. split; [reflexivity |].
  apply (special_pages_export (list response) Mock.scripted_get
           Mock.py_repr 1 Mock.api w []
           (Mock.json_reply
              (Mock.aliases_data [Mock.export_entry; Mock.export_entry]))
           eq_refl eq_refl).
Defined.

(** An API URL is returned as it is, without a request. *)
Lemma get_api_url_fast_path_witness :
  str_contains "api.php" "https://wiki.example/w/api.php" = true /\
  run_get_api_url "https://wiki.example/w/api.php" [Mock.stylesheet_page] =
    (Done (Some "https://wiki.example/w/api.php"), [], [Mock.stylesheet_page]).
Proof.
  split; [reflexivity |].
  apply (get_api_url_fast_path (list response) Mock.scripted_get
           Mock.urlparse "https://wiki.example/w/api.php"
           [Mock.stylesheet_page]).
  reflexivity.
Defined.



(** An entry with only a [realname] between two complete entries. *)
Lemma entry_without_aliases_witness :
  let entry := [("realname", JStr "Version")] in
  obj_get "aliases" entry = None /\
  collect_special_pages []
    ([Mock.export_entry] ++ JObj entry :: [Mock.export_entry])
  = Ret [KStr "Export"; KStr "ExportPages"; KStr "Version"].
Proof.
  intros entry. split; [reflexivity |].
  rewrite (proj2 (entry_without_aliases entry (JStr "Version") (KStr "Version")
                    [] [Mock.export_entry] [Mock.export_entry]
                    eq_refl eq_refl eq_refl)).
  reflexivity.
Defined.

(** ** Walks against a scripted server *)

Ltac scripted_walk step collect_acc :=
  induction 1 as [| d items ds itemss [Hitems [ckvs Hcont]] _ IH];
    intros last items_last rest fuel params acc Hlast Hdone Hfuel;
    (destruct fuel as [| fuel]; [cbn in Hfuel; lia |]);
    cbn [app map List.length List.concat] in *;
  [ rewrite (step (list response) Mock.scripted_get _ fuel _ params acc
               (acc ++ items_last) (Mock.json_reply last :: rest) rest
               (Mock.json_reply last) last None
               eq_refl eq_refl (collect_acc _ _ _ _ Hlast));
      [repeat split | unfold next_params; rewrite Hdone; reflexivity]
  | rewrite (step (list response) Mock.scripted_get _ fuel _ params acc
               (acc ++ items)
               (Mock.json_reply d :: map Mock.json_reply (ds ++ [last]) ++ rest)
               (map Mock.json_reply (ds ++ [last]) ++ rest)
               (Mock.json_reply d) d
               (Some (update_from_obj params ckvs))
               eq_refl eq_refl (collect_acc _ _ _ _ Hitems));
      [| unfold next_params; rewrite Hcont; reflexivity];
      destruct (IH last items_last rest fuel (update_from_obj params ckvs)
                  (acc ++ items) Hlast Hdone ltac:(lia)) as (Hres & Hreq & Hw);
      unfold prepend; cbn [result_of events_of world_of fst snd];
      split; [rewrite Hres, <- !app_assoc; reflexivity |];
      split; [cbn; rewrite Hreq; reflexivity | exact Hw] ].

Lemma scripted_pages_walk (py_repr : json -> string) (api_url : string)
    (ds : list json) (itemss : list (list string)) :
  Forall2 (fun d items =>
             collect_pages py_repr d [] = Ret items /\
             exists ckvs, continuation_object d = Ret (Some (JObj ckvs)))
          ds itemss ->
  forall (last : json) (items_last : list string) (rest : list response)
         (fuel : nat) (params : pydict) (acc : list string),
    collect_pages py_repr last [] = Ret items_last ->
    continuation_object last = Ret None ->
    (List.length ds < fuel)%nat ->
    result_of (get_all_pages_loop (list response) Mock.scripted_get py_repr
                 fuel api_url params acc
                 (map Mock.json_reply (ds ++ [last]) ++ rest))
      = Done (acc ++ List.concat itemss ++ items_last) /\
    List.length (requests_of (events_of
              (get_all_pages_loop (list response) Mock.scripted_get py_repr
                 fuel api_url params acc
                 (map Mock.json_reply (ds ++ [last]) ++ rest))))
      = S (List.length ds) /\
    world_of (get_all_pages_loop (list response) Mock.scripted_get py_repr
                fuel api_url params acc
                (map Mock.json_reply (ds ++ [last]) ++ rest))
      = rest.
Proof. scripted_walk get_all_pages_loop_step collect_pages_acc. Qed.

Lemma scripted_images_walk (py_repr : json -> string) (api_url : string)
    (ds : list json) (itemss : list (list string)) :
  Forall2 (fun d items =>
             collect_images py_repr d [] = Ret items /\
             exists ckvs, continuation_object d = Ret (Some (JObj ckvs)))
          ds itemss ->
  forall (last : json) (items_last : list string) (rest : list response)
         (fuel : nat) (params : pydict) (acc : list string),
    collect_images py_repr last [] = Ret items_last ->
    continuation_object last = Ret None ->
    (List.length ds < fuel)%nat ->
    result_of (get_all_images_loop (list response) Mock.scripted_get py_repr
                 fuel api_url params acc
                 (map Mock.json_reply (ds ++ [last]) ++ rest))
      = Done (acc ++ List.concat itemss ++ items_last) /\
    List.length (requests_of (events_of
              (get_all_images_loop (list response) Mock.scripted_get py_repr
                 fuel api_url params acc
                 (map Mock.json_reply (ds ++ [last]) ++ rest))))
      = S (List.length ds) /\
    world_of (get_all_images_loop (list response) Mock.scripted_get py_repr
                fuel api_url params acc
                (map Mock.json_reply (ds ++ [last]) ++ rest))
      = rest.
Proof. scripted_walk get_all_images_loop_step collect_images_acc. Qed.

(** X13. Walking the article listing to exhaustion. Against a server
    that answers with pages [ds], each carrying a continuation object,
    and then with a page [last] that carries none, a walk with more fuel
    than there are pages in [ds] returns the items of all the pages, in
    the order of the pages, after exactly one request per page; the
    answers that follow [last] are left for the next listing. *)
Theorem walk_pages_to_exhaustion (py_repr : json -> string) (fuel : nat)
    (api_url : string) (gapnamespace : json) (ds : list json)
    (itemss : list (list string)) (last : json) (items_last : list string)
    (rest : list response) :
  Forall2 (fun d items =>
             collect_pages py_repr d [] = Ret items /\
             exists ckvs, continuation_object d = Ret (Some (JObj ckvs)))
          ds itemss ->
  collect_pages py_repr last [] = Ret items_last ->
  continuation_object last = Ret None ->
  (List.length ds < fuel)%nat ->
  let run := get_all_pages (list response) Mock.scripted_get py_repr
               fuel api_url gapnamespace
               (map Mock.json_reply (ds ++ [last]) ++ rest) in
  result_of run = Done (List.concat itemss ++ items_last) /\
  List.length (requests_of (events_of run)) = S (List.length ds) /\
  world_of run = rest.
Proof.
  intros Hds Hlast Hdone Hfuel.
  exact (scripted_pages_walk py_repr api_url ds itemss Hds last items_last rest
           fuel (all_pages_params gapnamespace) [] Hlast Hdone Hfuel).
Qed.

(** X22. Walking the media listing to exhaustion: as for the article
    listing, the walk returns the items of all the pages in order after
    one request per page. *)
Theorem walk_images_to_exhaustion (py_repr : json -> string) (fuel : nat)
    (api_url : string) (ds : list json) (itemss : list (list string))
    (last : json) (items_last : list string) (rest : list response) :
  Forall2 (fun d items =>
             collect_images py_repr d [] = Ret items /\
             exists ckvs, continuation_object d = Ret (Some (JObj ckvs)))
          ds itemss ->
  collect_images py_repr last [] = Ret items_last ->
  continuation_object last = Ret None ->
  (List.length ds < fuel)%nat ->
  let run := get_all_images (list response) Mock.scripted_get py_repr
               fuel api_url
               (map Mock.json_reply (ds ++ [last]) ++ rest) in
  result_of run = Done (List.concat itemss ++ items_last) /\
  List.length (requests_of (events_of run)) = S (List.length ds) /\
  world_of run = rest.
Proof.
  intros Hds Hlast Hdone Hfuel.
  exact (scripted_images_walk py_repr api_url ds itemss Hds last items_last rest
           fuel all_images_params [] Hlast Hdone Hfuel).
Qed.

(** ** More worked examples *)

(** The URL of the example API contains [api.php]: no effect. The URL
    of the main page does not: the page is fetched first. *)
Lemma get_api_url_no_effect_iff_marker_witness :
  events_of (run_get_api_url Mock.api [Mock.plain_page]) = [] /\
  (forall a b, "https://wiki.example/wiki/Main_Page" <> a +:+ "api.php" +:+ b) /\
  exists rest,
    events_of (run_get_api_url "https://wiki.example/wiki/Main_Page"
                 [Mock.plain_page]) =
      EvGet "https://wiki.example/wiki/Main_Page" None :: rest.
Proof.
  assert (Hnone : forall a b,
             "https://wiki.example/wiki/Main_Page" <> a +:+ "api.php" +:+ b).
  { intros a b Hab. pose proof (str_contains_app "api.php" a b) as Hin.
    rewrite <- Hab in Hin. vm_compute in Hin. discriminate Hin. }
  split; [| split; [exact Hnone |]].
  - apply (get_api_url_no_effect_iff_marker (list response) Mock.scripted_get
             Mock.urlparse Mock.api [Mock.plain_page]).
    exists "https://wiki.example/", "". reflexivity.
  - apply (get_api_url_no_effect_iff_marker (list response) Mock.scripted_get
             Mock.urlparse "https://wiki.example/wiki/Main_Page"
             [Mock.plain_page]).
    exact Hnone.
Defined.

(** The EditURI target [https://wiki.example/w/api.php?action=rsd]. *)
Lemma get_api_url_edit_uri_witness :
  str_contains "api.php" "https://wiki.example/wiki/Main_Page" = false /\
  str_contains "?" "https://wiki.example/w/api.php" = false /\
  run_get_api_url "https://wiki.example/wiki/Main_Page" [Mock.edituri_page] =
    (Done (Some "https://wiki.example/w/api.php"),
     [EvGet "https://wiki.example/wiki/Main_Page" None], []).
Proof.
  split; [reflexivity |]. split; [reflexivity |].
  apply (get_api_url_edit_uri (list response) Mock.scripted_get Mock.urlparse
           "https://wiki.example/wiki/Main_Page" [Mock.edituri_page] []
           Mock.edituri_page
           {| link_rel := ["EditURI"];
              link_href := Some "https://wiki.example/w/api.php?action=rsd" |}
           "https://wiki.example/w/api.php" "action=rsd");
    reflexivity.
Defined.

(** An EditURI link without a target, although a stylesheet link follows. *)
Lemma get_api_url_edit_uri_without_href_witness :
  soup_find "EditURI" (resp_soup Mock.edituri_without_href_page)
    = Some {| link_rel := ["EditURI"]; link_href := None |} /\
  run_get_api_url "https://wiki.example/wiki/Main_Page"
      [Mock.edituri_without_href_page] =
    (Raised (KeyError "href"),
     [EvGet "https://wiki.example/wiki/Main_Page" None], []).
Proof.
  split; [reflexivity |].
  apply (get_api_url_edit_uri_without_href (list response) Mock.scripted_get
           Mock.urlparse "https://wiki.example/wiki/Main_Page"
           [Mock.edituri_without_href_page] [] Mock.edituri_without_href_page
           {| link_rel := ["EditURI"]; link_href := None |});
    reflexivity.
Defined.

(** A page without links. *)
Lemma get_api_url_not_found_witness :
  soup_find "stylesheet" (resp_soup Mock.plain_page) = None /\
  run_get_api_url "https://wiki.example/wiki/Main_Page" [Mock.plain_page] =
    (Done None,
     [EvGet "https://wiki.example/wiki/Main_Page" None; EvSleep delaySeconds], []).
Proof.
  split; [reflexivity |].
  apply (get_api_url_not_found (list response) Mock.scripted_get Mock.urlparse
           "https://wiki.example/wiki/Main_Page" [Mock.plain_page] []
           Mock.plain_page);
    [reflexivity | reflexivity | reflexivity | left; reflexivity].
Defined.

(** The query string of an EditURI target is cut off. *)
Lemma before_question_mark_spec_witness :
  str_contains "?" "https://wiki.example/w/api.php?action=rsd" = true /\
  exists query,
    "https://wiki.example/w/api.php?action=rsd" =
    before_question_mark "https://wiki.example/w/api.php?action=rsd"
      +:+ "?" +:+ query.
Proof.
  split; [reflexivity |].
  apply (before_question_mark_spec "https://wiki.example/w/api.php?action=rsd").
  reflexivity.
Defined.

(** A wiki page without links: the run ends after endpoint resolution. *)
Lemma main_without_endpoint_witness :
  result_of (run_get_api_url "https://wiki.example/wiki/Main_Page"
               [Mock.plain_page]) = Done None /\
  run_main 5 "https://wiki.example/wiki/Main_Page" [Mock.plain_page] =
    (Done tt,
     [EvGet "https://wiki.example/wiki/Main_Page" None; EvSleep delaySeconds], []).
Proof.
  split; [reflexivity |].
  apply (main_without_endpoint (list response) Mock.scripted_get Mock.urljoin
           Mock.urlparse Mock.py_repr 5 "https://wiki.example/wiki/Main_Page"
           [Mock.plain_page] None);
    [reflexivity | left; reflexivity].
Defined.

(** A site-information answer without [query]. *)
Lemma main_descriptor_failure_witness :
  run_get_api_url Mock.api [Mock.json_reply (JObj [])]
    = (Done (Some Mock.api), [], [Mock.json_reply (JObj [])]) /\
  run_main 5 Mock.api [Mock.json_reply (JObj [])] =
    (Raised (KeyError "query"),
     [EvSleep delaySeconds; EvGet Mock.api (Some site_info_params)], []).
Proof.
  split; [reflexivity |].
  apply (main_descriptor_failure (list response) Mock.scripted_get Mock.urljoin
           Mock.urlparse Mock.py_repr 5 Mock.api Mock.api
           [Mock.json_reply (JObj [])] [Mock.json_reply (JObj [])] [] []
           [EvSleep delaySeconds; EvGet Mock.api (Some site_info_params)]
           (KeyError "query"));
    [reflexivity | discriminate | reflexivity].
Defined.

(** A namespace table whose second entry has no [id], against a server
    with one page of articles for each walk: namespace 0 is walked and
    flushed, then the loop fails; the answer meant for namespace 2 is
    left unasked. *)
Lemma namespace_loop_bad_entry_witness :
  let w := [Mock.json_reply Mock.pages_data; Mock.json_reply Mock.pages_data] in
  pyres_bind (py_getitem (JObj [("*", JStr "Talk")]) "id") py_lt0
    = Raise (KeyError "id") /\
  namespace_loop (list response) Mock.scripted_get Mock.py_repr 5 Mock.api
      ([JObj [("id", JNum 0)]] ++ JObj [("*", JStr "Talk")] :: [JObj [("id", JNum 2)]])
      w =
    (Raised (KeyError "id"),
     [EvGet Mock.api (Some (all_pages_params (JNum 0)));
      EvSleep delaySeconds;
      EvAppend "items.txt"
        ["mediawiki-article:https://wiki.example/wiki/Main_Page" +:+ newline]],
     [Mock.json_reply Mock.pages_data]).
Proof.
  intros w. split; [reflexivity |].
  rewrite (namespace_loop_bad_entry (list response) Mock.scripted_get Mock.py_repr
             5 Mock.api [JObj [("id", JNum 0)]] [JObj [("id", JNum 2)]]
             (JObj [("*", JStr "Talk")]) (KeyError "id") w eq_refl).
  vm_compute. reflexivity.
Defined.

(** The namespace [-1] between the namespaces [0] and [2], against a
    server with one page of articles for each walk: the loop ends
    normally after the walks of 0 and 2, as without the entry. *)
Lemma namespace_loop_skips_negative_witness :
  let w := [Mock.json_reply Mock.pages_data; Mock.json_reply Mock.pages_data] in
  let run := namespace_loop (list response) Mock.scripted_get Mock.py_repr 5
               Mock.api
               ([JObj [("id", JNum 0)]] ++ JObj [("id", JNum (-1))]
                  :: [JObj [("id", JNum 2)]]) w in
  -1 < 0 /\
  run = namespace_loop (list response) Mock.scripted_get Mock.py_repr 5 Mock.api
          ([JObj [("id", JNum 0)]] ++ [JObj [("id", JNum 2)]]) w /\
  result_of run = Done tt /\
  walk_starts true (events_of run) =
    [all_pages_params (JNum 0); all_pages_params (JNum 2)].
Proof.
  intros w run. split; [lia |]. split; [| split; reflexivity].
  apply (namespace_loop_skips_negative (list response) Mock.scripted_get
           Mock.py_repr 5 Mock.api [JObj [("id", JNum 0)]] [JObj [("id", JNum 2)]]
           (JObj [("id", JNum (-1))]) (-1) w);
    [reflexivity | lia].
Defined.

(** The page of articles of the example, after one item. *)
Lemma collect_pages_in_order_witness :
  Forall2 (fun page u => py_getitem (snd page) "fullurl" = Ret u)
          [("1", Mock.article_entry)]
          [JStr "https://wiki.example/wiki/Main_Page"] /\
  collect_pages Mock.py_repr Mock.pages_data ["mediawiki-article:x"] =
    Ret ["mediawiki-article:x";
         "mediawiki-article:https://wiki.example/wiki/Main_Page"].
Proof.
  assert (H : Forall2 (fun page u => py_getitem (snd page) "fullurl" = Ret u)
                      [("1", Mock.article_entry)]
                      [JStr "https://wiki.example/wiki/Main_Page"])
    by (repeat constructor).
  split; [exact H |].
  apply (collect_pages_in_order Mock.py_repr Mock.pages_data
           (JObj [("pages", JObj [("1", Mock.article_entry)])])
           [("1", Mock.article_entry)]
           [JStr "https://wiki.example/wiki/Main_Page"] ["mediawiki-article:x"]
           eq_refl eq_refl H).
Defined.

(** The page of media of the example, after one item. *)
Lemma collect_images_in_order_witness :
  Forall2 (fun image u => py_getitem image "url" = Ret u)
          [Mock.media_entry] [JStr "https://wiki.example/images/Logo.png"] /\
  collect_images Mock.py_repr Mock.images_data ["mediawiki-media:x"] =
    Ret ["mediawiki-media:x";
         "mediawiki-media:https://wiki.example/images/Logo.png"].
Proof.
  assert (H : Forall2 (fun image u => py_getitem image "url" = Ret u)
                      [Mock.media_entry]
                      [JStr "https://wiki.example/images/Logo.png"])
    by (repeat constructor).
  split; [exact H |].
  apply (collect_images_in_order Mock.py_repr Mock.images_data
           (JObj [("allimages", JArr [Mock.media_entry])])
           [Mock.media_entry] [JStr "https://wiki.example/images/Logo.png"]
           ["mediawiki-media:x"] eq_refl eq_refl H).
Defined.

(** A page whose second entry has no [fullurl]. *)
Lemma walk_fails_on_entry_without_fullurl_witness :
  py_getitem (JObj [("pageid", JNum 2); ("title", JStr "Sandbox")]) "fullurl"
    = Raise (KeyError "fullurl") /\
  get_all_pages_loop (list response) Mock.scripted_get Mock.py_repr 5 Mock.api
      (all_pages_params (JNum 0)) []
      [Mock.json_reply Mock.incomplete_pages_data] =
    (Raised (KeyError "fullurl"),
     [EvGet Mock.api (Some (all_pages_params (JNum 0)))], []).
Proof.
  split; [reflexivity |].
  apply (walk_fails_on_entry_without_fullurl (list response) Mock.scripted_get
           Mock.py_repr 4 Mock.api (all_pages_params (JNum 0)) []
           [Mock.json_reply Mock.incomplete_pages_data] []
           (Mock.json_reply Mock.incomplete_pages_data)
           Mock.incomplete_pages_data
           (JObj [("pages", JObj Mock.incomplete_pages)])
           [("1", Mock.article_entry)] [] "2"
           (JObj [("pageid", JNum 2); ("title", JStr "Sandbox")])
           (KeyError "fullurl"));
    try reflexivity.
  repeat constructor. eexists. reflexivity.
Defined.

(** The modern continuation object of the example. *)
Lemma modern_continuation_merge_witness :
  py_getitem Mock.modern_first_data "continue"
    = Ret (JObj [("gapcontinue", JStr "B"); ("continue", JStr "gapcontinue||")]) /\
  exists params',
    next_params Mock.modern_first_data (all_pages_params (JNum 0))
      = Ret (Some params') /\
    (forall k v,
       obj_get k [("gapcontinue", JStr "B"); ("continue", JStr "gapcontinue||")]
         = Some v ->
       dict_get (KStr k) params' = Some v) /\
    (forall k,
       obj_get k [("gapcontinue", JStr "B"); ("continue", JStr "gapcontinue||")]
         = None ->
       dict_get (KStr k) params' = dict_get (KStr k) (all_pages_params (JNum 0))).
Proof.
  split; [reflexivity |].
  apply (modern_continuation_merge Mock.modern_first_data
           (all_pages_params (JNum 0))
           [("gapcontinue", JStr "B"); ("continue", JStr "gapcontinue||")]
           eq_refl).
  apply NoDup_cons. split; [| apply NoDup_singleton].
  rewrite list_elem_of_singleton. discriminate.
Defined.


(** The template [/wiki/$1] and a template without placeholder. *)
Lemma replace_dollar1_substitutes_witness :
  str_contains "$" "/wiki/" = false /\
  replace_dollar1 ("/wiki/" +:+ "$1" +:+ "") "Special:Export"
    = "/wiki/" +:+ "Special:Export" +:+ replace_dollar1 "" "Special:Export".
Proof.
  split; [reflexivity |].
  apply (replace_dollar1_substitutes "/wiki/" "" "Special:Export").
  reflexivity.
Defined.

(** Two alias entries that share the name [Version]. *)
Lemma special_pages_are_the_names_witness :
  Forall2 entry_names
          [JObj [("realname", JStr "Export"); ("aliases", JArr [JStr "Version"])];
           Mock.version_entry]
          [["Export"; "Version"]; ["Version"]] /\
  exists items,
    run_special_pages Mock.api (JStr "/wiki/$1")
        [Mock.json_reply (Mock.aliases_data
           [JObj [("realname", JStr "Export"); ("aliases", JArr [JStr "Version"])];
            Mock.version_entry])] =
      (Done items,
       [EvSleep delaySeconds; EvGet Mock.api (Some special_pages_params)], []) /\
    forall x, x ∈ items <->
              exists name,
                name ∈ List.concat [["Export"; "Version"]; ["Version"]] /\
                x = "mediawiki-special:" +:+
                    replace_dollar1 "/wiki/$1" ("Special:" +:+ name).
Proof.
  assert (H : Forall2 entry_names
                [JObj [("realname", JStr "Export");
                       ("aliases", JArr [JStr "Version"])];
                 Mock.version_entry]
                [["Export"; "Version"]; ["Version"]]).
  { constructor; [| constructor; [| constructor]].
    - eexists _, "Export", ["Version"]. repeat split. right. reflexivity.
    - eexists _, "Version", []. repeat split. left. split; reflexivity. }
  split; [exact H |].
  apply (special_pages_are_the_names (list response) Mock.scripted_get
           Mock.py_repr Mock.api "/wiki/$1"
           [Mock.json_reply (Mock.aliases_data
              [JObj [("realname", JStr "Export");
                     ("aliases", JArr [JStr "Version"])];
               Mock.version_entry])]
           [] _ _ _ _ _ eq_refl eq_refl eq_refl eq_refl H).
Defined.

(** The template [/wiki/Special] has no placeholder. *)
Lemma special_pages_without_placeholder_witness :
  str_contains "$1" "/wiki/Special" = false /\
  run_special_pages Mock.api (JStr "/wiki/Special")
      [Mock.json_reply (Mock.aliases_data [Mock.export_entry; Mock.version_entry])] =
    (Done {[ "mediawiki-special:/wiki/Special" ]},
     [EvSleep delaySeconds; EvGet Mock.api (Some special_pages_params)], []).
Proof.
  split; [reflexivity |].
  apply (special_pages_without_placeholder (list response) Mock.scripted_get
           Mock.py_repr Mock.api "/wiki/Special"
           [Mock.json_reply
              (Mock.aliases_data [Mock.export_entry; Mock.version_entry])]
           [] _ _ _
           [Mock.export_entry; Mock.version_entry]
           [["Export"; "ExportPages"]; ["Version"]]
           eq_refl eq_refl eq_refl eq_refl).
  - constructor; [| constructor; [| constructor]].
    + eexists _, "Export", ["ExportPages"]. repeat split. right. reflexivity.
    + eexists _, "Version", []. repeat split. left. split; reflexivity.
  - discriminate.
  - reflexivity.
Defined.

(** The modern script of the example: two pages, two requests. *)
Lemma walk_pages_to_exhaustion_witness :
  continuation_object Mock.pages_data = Ret None /\
  result_of (run_pages 5 Mock.api (JNum 0) Mock.modern_script) =
    Done ["mediawiki-article:https://wiki.example/wiki/Main_Page";
          "mediawiki-article:https://wiki.example/wiki/Main_Page"] /\
  List.length (requests_of (events_of
     (run_pages 5 Mock.api (JNum 0) Mock.modern_script))) = 2%nat.
Proof.
  split; [reflexivity |].
  destruct (walk_pages_to_exhaustion Mock.py_repr 5 Mock.api (JNum 0)
              [Mock.modern_first_data]
              [["mediawiki-article:https://wiki.example/wiki/Main_Page"]]
              Mock.pages_data
              ["mediawiki-article:https://wiki.example/wiki/Main_Page"] [])
    as (Hres & Hreq & _).
  - repeat constructor. eexists. reflexivity.
  - reflexivity.
  - reflexivity.
  - cbn. lia.
  - split; [exact Hres | exact Hreq].
Defined.

(** One page of media with a continuation, then a last page. *)
Lemma walk_images_to_exhaustion_witness :
  let first := JObj [("continue", JObj [("aicontinue", JStr "M.png");
                                        ("continue", JStr "-||")]);
                     ("query", JObj [("allimages", JArr [Mock.media_entry])])] in
  continuation_object Mock.images_data = Ret None /\
  result_of (run_images 5 Mock.api
               [Mock.json_reply first; Mock.json_reply Mock.images_data]) =
    Done ["mediawiki-media:https://wiki.example/images/Logo.png";
          "mediawiki-media:https://wiki.example/images/Logo.png"].
Proof.
  intros first. split; [reflexivity |].
  destruct (walk_images_to_exhaustion Mock.py_repr 5 Mock.api [first]
              [["mediawiki-media:https://wiki.example/images/Logo.png"]]
              Mock.images_data
              ["mediawiki-media:https://wiki.example/images/Logo.png"] [])
    as (Hres & _ & _).
  - repeat constructor. eexists. reflexivity.
  - reflexivity.
  - reflexivity.
  - cbn. lia.
  - exact Hres.
Defined.
